(** * DU Status Checker: a shallow embedding of [app.py]

    The program is a Streamlit page: it loads its configuration from the
    process environment, computes a 24 hour time window, reads a
    comma-separated list of DU identifiers, fetches one status per
    identifier and one name per fetched identifier over HTTP, and hands
    the successful results to a chat-completion endpoint.

    Python values are modelled by [pyval], Python [dict]s by
    insertion-ordered association lists, and the effects of the script
    (UI output, HTTP requests, exceptions, [st.stop()]) by a small
    state-and-exception monad [M] over a record [State] that carries the
    outside world. *)

From Stdlib Require Import String Ascii List ZArith Bool Lia.
From Stdlib Require Import DecimalString.
Import ListNotations.
Open Scope string_scope.
Open Scope Z_scope.

(* ================================================================== *)
(** ** Python strings *)

(** A [str] is a [string]; each [ascii] stands for the code point of the
    same number (0..255).  [Py_UNICODE_ISSPACE] on that range: the
    characters for which [str.isspace()] holds, which are the ones
    [str.strip()] removes. *)
Definition is_space (c : ascii) : bool :=
  let n := N_of_ascii c in
  ((9 <=? n) && (n <=? 13))%N || ((28 <=? n) && (n <=? 32))%N
  || (n =? 133)%N || (n =? 160)%N.

Definition is_empty (s : string) : bool :=
  match s with EmptyString => true | String _ _ => false end.

(** Truthiness of a [str]: [if s:] holds for the non-empty strings. *)
Definition truthy (s : string) : bool := negb (is_empty s).

Fixpoint lstrip (s : string) : string :=
  match s with
  | EmptyString => EmptyString
  | String c s' => if is_space c then lstrip s' else s
  end.

Fixpoint rstrip (s : string) : string :=
  match s with
  | EmptyString => EmptyString
  | String c s' =>
      let r := rstrip s' in
      if is_space c && is_empty r then EmptyString else String c r
  end.

(** [s.strip()] *)
Definition strip (s : string) : string := rstrip (lstrip s).

(** [s.split(sep)] for a one-character separator: the pieces between the
    separators, in order; there is always at least one piece. *)
Fixpoint split (sep : ascii) (s : string) : list string :=
  match s with
  | EmptyString => [EmptyString]
  | String c s' =>
      if Ascii.eqb c sep then EmptyString :: split sep s'
      else match split sep s' with
           | [] => [String c EmptyString]
           | t :: ts => String c t :: ts
           end
  end.

(** [sep.join(l)] *)
Fixpoint join (sep : string) (l : list string) : string :=
  match l with
  | [] => EmptyString
  | [t] => t
  | t :: ts => t ++ sep ++ join sep ts
  end.

(** [str(n)] for an [int]. *)
Definition str_of_int (n : Z) : string :=
  NilZero.string_of_int (Z.to_int n).

(** *** [repr(s)] of a [str]

    The quote is the single quote, unless the string holds a single
    quote and no double quote.  The quote and the backslash are
    escaped, tab, newline and carriage return have their letter, and
    the other characters that are not printable (0..31, 127..160 and
    173 on this range) are written [\xhh]. *)
Definition double_quote : ascii := ascii_of_N 34.
Definition backslash : ascii := ascii_of_N 92.

Fixpoint has_ascii (a : ascii) (s : string) : bool :=
  match s with
  | EmptyString => false
  | String c s' => Ascii.eqb c a || has_ascii a s'
  end.

Definition hex_digit (n : N) : ascii :=
  if (n <? 10)%N then ascii_of_N (48 + n) else ascii_of_N (87 + n).

Definition is_printable (c : ascii) : bool :=
  let n := N_of_ascii c in
  ((32 <=? n) && (n <=? 126))%N
  || ((161 <=? n) && negb (n =? 173))%N.

Definition repr_char (quote c : ascii) : string :=
  let n := N_of_ascii c in
  if Ascii.eqb c quote || Ascii.eqb c backslash then
    String backslash (String c EmptyString)
  else if (n =? 9)%N then String backslash "t"
  else if (n =? 10)%N then String backslash "n"
  else if (n =? 13)%N then String backslash "r"
  else if is_printable c then String c EmptyString
  else String backslash
         (String "x"
            (String (hex_digit (n / 16)) (String (hex_digit (n mod 16))
                                            EmptyString))).

Fixpoint repr_chars (quote : ascii) (s : string) : string :=
  match s with
  | EmptyString => EmptyString
  | String c s' => repr_char quote c ++ repr_chars quote s'
  end.

Definition py_repr (s : string) : string :=
  let quote :=
    if has_ascii "'" s && negb (has_ascii double_quote s)
    then double_quote else "'"%char in
  String quote (repr_chars quote s ++ String quote EmptyString).

(** *** [int(s)] on a [str]

    [int()] skips whitespace on both sides, reads one optional sign and
    then a run of decimal digits in which single underscores may
    separate digits.  The whitespace it skips is narrower than that of
    [str.strip()]: the characters 9..13 and 32, and of those above 127
    the two that count as spaces, 133 and 160; the separators 28..31
    are not skipped.  A run of more than 4300 digits is refused (the
    default of [sys.set_int_max_str_digits]). *)
Definition is_int_space (c : ascii) : bool :=
  let n := N_of_ascii c in
  ((9 <=? n) && (n <=? 13))%N || (n =? 32)%N
  || (n =? 133)%N || (n =? 160)%N.

Fixpoint skip_int_space (s : string) : string :=
  match s with
  | EmptyString => EmptyString
  | String c s' => if is_int_space c then skip_int_space s' else s
  end.

Fixpoint all_int_space (s : string) : bool :=
  match s with
  | EmptyString => true
  | String c s' => is_int_space c && all_int_space s'
  end.

Definition digit_of (c : ascii) : option Z :=
  let n := N_of_ascii c in
  if ((48 <=? n) && (n <=? 57))%N then Some (Z.of_N n - 48) else None.

(** The run of digits at the start of a string: its value, the number
    of its digits and what follows it; [ScanError] for two underscores
    in a row and for an underscore that ends the run. *)
Inductive int_scan : Type :=
| ScanError
| Scanned (value digits : Z) (rest : string).

Fixpoint scan_digits (after_underscore : bool) (acc digits : Z)
    (s : string) : int_scan :=
  match s with
  | EmptyString =>
      if after_underscore then ScanError else Scanned acc digits s
  | String c s' =>
      match digit_of c with
      | Some d => scan_digits false (10 * acc + d) (digits + 1) s'
      | None =>
          if Ascii.eqb c "_" then
            if after_underscore then ScanError
            else scan_digits true acc digits s'
          else if after_underscore then ScanError
          else Scanned acc digits s
      end
  end.

Definition int_max_str_digits : Z := 4300.

Inductive int_result : Type :=
| IntOk (n : Z)
| IntInvalid
| IntTooLong (digits : Z).

Definition int_parse (s : string) : int_result :=
  let t := skip_int_space s in
  let '(negative, body) :=
    match t with
    | String "+" b => (false, b)
    | String "-" b => (true, b)
    | _ => (false, t)
    end in
  match body with
  | String "_" _ => IntInvalid
  | _ =>
      match scan_digits false 0 0 body with
      | ScanError => IntInvalid
      | Scanned value digits rest =>
          if int_max_str_digits <? digits then IntTooLong digits
          else if digits =? 0 then IntInvalid
          else if all_int_space rest then
            IntOk (if negative then - value else value)
          else IntInvalid
      end
  end.

(** The integer [int(s)] returns, when it returns one. *)
Definition py_int (s : string) : option Z :=
  match int_parse s with
  | IntOk n => Some n
  | _ => None
  end.

(** The text of the [ValueError] that [int(s)] raises otherwise; the
    literal is shown by the first 200 characters of its [repr]. *)
Definition int_error_message (s : string) : string :=
  match int_parse s with
  | IntTooLong digits =>
      "Exceeds the limit (" ++ str_of_int int_max_str_digits
      ++ " digits) for integer string conversion: value has "
      ++ str_of_int digits
      ++ " digits; use sys.set_int_max_str_digits() to increase the limit"
  | _ =>
      "invalid literal for int() with base 10: "
      ++ substring 0 200 (py_repr s)
  end.

(* ================================================================== *)
(** ** Python values and dicts *)

(** A [dict] with [str] keys keeps its keys in insertion order. *)
Definition dict (V : Type) : Type := list (string * V).

Definition keys {V} (d : dict V) : list string := map fst d.

(** [d.get(k)] *)
Fixpoint dict_get {V} (d : dict V) (k : string) : option V :=
  match d with
  | [] => None
  | (k', v) :: d' => if String.eqb k' k then Some v else dict_get d' k
  end.

(** [d[k] = v]: an existing key keeps its position and takes the new
    value, a new key goes to the end. *)
Fixpoint dict_set {V} (d : dict V) (k : string) (v : V) : dict V :=
  match d with
  | [] => [(k, v)]
  | (k', v') :: d' =>
      if String.eqb k' k then (k', v) :: d' else (k', v') :: dict_set d' k v
  end.

(** The values the program handles: what [json.loads] produces, which
    also covers the strings and dicts the program builds itself. *)
#[local] Unset Elimination Schemes.
Inductive pyval : Type :=
| PNone
| PBool (b : bool)
| PInt (n : Z)
| PFloat (literal : string)
| PStr (s : string)
| PList (l : list pyval)
| PDict (d : list (string * pyval)).
#[local] Set Elimination Schemes.

(** [isinstance(v, dict)] *)
Definition is_dict (v : pyval) : bool :=
  match v with PDict _ => true | _ => false end.

(** [type(v).__name__] *)
Definition type_name (v : pyval) : string :=
  match v with
  | PNone => "NoneType"
  | PBool _ => "bool"
  | PInt _ => "int"
  | PFloat _ => "float"
  | PStr _ => "str"
  | PList _ => "list"
  | PDict _ => "dict"
  end.

(* ================================================================== *)
(** ** Exceptions *)

(** The classes the handlers of the program tell apart.  All of them
    derive from [Exception]; [st.stop()] is not one of them (Streamlit's
    script-control exceptions derive from [BaseException]) and has its
    own outcome [Stopped] below. *)
Inductive exn_class : Type :=
| RequestException   (* requests.exceptions.RequestException and subclasses *)
| OpenAIError        (* openai.error.OpenAIError and subclasses *)
| ValueError
| AttributeError
| OtherException.    (* any other subclass of Exception *)

Record exn : Type := mk_exn { exn_cls : exn_class; exn_str : string }.

Definition is_RequestException (e : exn) : bool :=
  match exn_cls e with RequestException => true | _ => false end.

Definition is_OpenAIError (e : exn) : bool :=
  match exn_cls e with OpenAIError => true | _ => false end.

(* ================================================================== *)
(** ** The outside world *)

(** What [requests.get] is called with.  [req_data] is the value whose
    [json.dumps] text is sent as the body. *)
Record request : Type := mk_request {
  req_url : string;
  req_headers : list (string * string);
  req_params : list (string * pyval);
  req_data : option pyval;
  req_timeout : Z
}.

(** A [requests.Response]: [resp_json] is what [response.json()] does,
    the exception it raises or the value it returns. *)
Record response : Type := mk_response {
  status_code : Z;
  reason : string;
  resp_url : string;
  resp_json : exn + pyval
}.

(** The arguments of [openai.ChatCompletion.create].  [chat_data] is the
    value whose [json.dumps(data, indent=2)] text ends the user message. *)
Record chat_request : Type := mk_chat_request {
  chat_api_key : option string;
  chat_model : string;
  chat_system : string;
  chat_data : pyval;
  chat_temperature : string
}.

(** The part of a chat completion the program reads:
    [response['choices'][i]['message']['content']]. *)
Record chat_message : Type := mk_chat_message { content : pyval }.
Record chat_choice : Type := mk_chat_choice { message : chat_message }.
Record chat_response : Type := mk_chat_response { choices : list chat_choice }.

(** A naive [datetime], as the number of microseconds of local wall
    time; [d - timedelta(days=1)] is exact on it. *)
Definition datetime : Type := Z.

Definition one_day_us : Z := 86400 * 1000000.

(** The services the script talks to.  Each call may change the world.
    The exceptions a service raises are [exn]s, that is, subclasses of
    [Exception].  [timestamp_ms d] is [int(d.timestamp() * 1000)]: the
    conversion of local time to the epoch by the time zone of the host
    and the floating-point product are the world's. *)
Class External (World : Type) : Type := {
  requests_get : request -> World -> (exn + response) * World;
  chat_completion_create :
    chat_request -> World -> (exn + chat_response) * World;
  datetime_now : World -> datetime;
  timestamp_ms : World -> datetime -> Z
}.

(** What the page shows, in order.  [UiName] is
    [st.write(f"**DU ID**: {du_id} - **Name**: {du_name}")] and
    [UiStatusError] is [st.error(f"Error for DU ID {du_id}: {status}")],
    kept with their values instead of the formatted text. *)
Inductive ui_event : Type :=
| UiPageConfig (page_title layout : string)
| UiTitle (s : string)
| UiWrite (s : string)
| UiTextArea (label placeholder : string)
| UiButton (label : string)
| UiSpinner (s : string)
| UiSubheader (s : string)
| UiError (s : string)
| UiWarning (s : string)
| UiJson (v : pyval)
| UiMarkdown (v : pyval)
| UiName (du_id : string) (du_name : pyval)
| UiStatusError (du_id : string) (status : pyval).

(** The calls that leave the process. *)
Inductive call : Type :=
| HttpGet (r : request)
| ChatCompletion (r : chat_request).

Definition is_chat (c : call) : bool :=
  match c with ChatCompletion _ => true | HttpGet _ => false end.

(** The state a run of the script works on: the process environment and
    the widget values it reads, the [openai.api_key] global it writes,
    the world, and the page and the log of outgoing calls it extends. *)
Record State (World : Type) : Type := mk_State {
  environ : dict string;
  text_area_value : string;
  button_pressed : bool;
  openai_api_key : option string;
  world : World;
  ui : list ui_event;
  calls : list call
}.
Arguments mk_State {World}.
Arguments environ {World}.
Arguments text_area_value {World}.
Arguments button_pressed {World}.
Arguments openai_api_key {World}.
Arguments world {World}.
Arguments ui {World}.
Arguments calls {World}.

(* ================================================================== *)
(** ** The monad of the script *)

(** A statement returns, raises an [Exception], or stops the script
    ([st.stop()], which no [except Exception] catches). *)
Inductive result (A : Type) : Type :=
| Ok (a : A)
| Raised (e : exn)
| Stopped.
Arguments Ok {A}.
Arguments Raised {A}.
Arguments Stopped {A}.

Definition M (World A : Type) : Type :=
  State World -> result A * State World.

Section Monad.
Context {World : Type}.

Definition ret {A} (a : A) : M World A := fun st => (Ok a, st).

Definition bind {A B} (c : M World A) (k : A -> M World B) : M World B :=
  fun st =>
    match c st with
    | (Ok a, st') => k a st'
    | (Raised e, st') => (Raised e, st')
    | (Stopped, st') => (Stopped, st')
    end.

Definition raise {A} (e : exn) : M World A := fun st => (Raised e, st).

(** [st.stop()] *)
Definition st_stop {A} : M World A := fun st => (Stopped, st).

(** [try: body except Exception as e: handler e] *)
Definition try_except {A} (body : M World A) (handler : exn -> M World A)
  : M World A :=
  fun st =>
    match body st with
    | (Raised e, st') => handler e st'
    | other => other
    end.

Definition add_ui (es : list ui_event) (st : State World) : State World :=
  mk_State (environ st) (text_area_value st) (button_pressed st)
    (openai_api_key st) (world st) (ui st ++ es) (calls st).

(** A UI call appends to the page. *)
Definition emit (e : ui_event) : M World unit :=
  fun st => (Ok tt, add_ui [e] st).

Definition set_world (w : World) (st : State World) : State World :=
  mk_State (environ st) (text_area_value st) (button_pressed st)
    (openai_api_key st) w (ui st) (calls st).

Definition log_call (c : call) (st : State World) : State World :=
  mk_State (environ st) (text_area_value st) (button_pressed st)
    (openai_api_key st) (world st) (ui st) (calls st ++ [c]).

(** [openai.api_key = k] *)
Definition set_openai_api_key (k : string) : M World unit :=
  fun st =>
    (Ok tt, mk_State (environ st) (text_area_value st) (button_pressed st)
              (Some k) (world st) (ui st) (calls st)).

Definition get_state : M World (State World) := fun st => (Ok st, st).

(** [for x in l: acc = body acc x] *)
Fixpoint for_each {A S} (l : list A) (acc : S) (body : S -> A -> M World S)
  : M World S :=
  match l with
  | [] => ret acc
  | x :: l' => bind (body acc x) (fun acc' => for_each l' acc' body)
  end.

End Monad.

Notation "x <- c ;; k" := (bind c (fun x => k))
  (at level 61, c at next level, right associativity).
Notation "c ;; k" := (bind c (fun _ => k))
  (at level 61, right associativity).

(* ================================================================== *)
(** ** The program *)

Section Program.
Context {World : Type} {Ext : External World}.

#[local] Abbreviation M := (M World).

(** *** Library calls *)

(** [os.getenv(name)] and [os.getenv(name, default)] *)
Definition os_getenv (name : string) : M (option string) :=
  fun st => (Ok (dict_get (environ st) name), st).

Definition os_getenv_default (name default : string) : M string :=
  fun st =>
    (Ok (match dict_get (environ st) name with
         | Some v => v
         | None => default
         end), st).

(** [int(s)]: the integer, or the [ValueError] of [int()]. *)
Definition int_of_str (s : string) : M Z :=
  match py_int s with
  | Some n => ret n
  | None => raise (mk_exn ValueError (int_error_message s))
  end.

(** [requests.get(...)]: the request leaves the process, and the world
    answers with a response or with an exception. *)
Definition requests_get_call (r : request) : M response :=
  fun st =>
    let st1 := log_call (HttpGet r) st in
    match requests_get r (world st1) with
    | (inl e, w) => (Raised e, set_world w st1)
    | (inr resp, w) => (Ok resp, set_world w st1)
    end.

(** [response.raise_for_status()]: requests raises [HTTPError], a
    [RequestException], for the status codes 400 to 599 and for no
    other. *)
Definition raise_for_status (r : response) : M unit :=
  if (400 <=? status_code r) && (status_code r <? 500) then
    raise (mk_exn RequestException
             (str_of_int (status_code r) ++ " Client Error: " ++ reason r
              ++ " for url: " ++ resp_url r))
  else if (500 <=? status_code r) && (status_code r <? 600) then
    raise (mk_exn RequestException
             (str_of_int (status_code r) ++ " Server Error: " ++ reason r
              ++ " for url: " ++ resp_url r))
  else ret tt.

(** [response.json()] *)
Definition response_json (r : response) : M pyval :=
  match resp_json r with
  | inl e => raise e
  | inr v => ret v
  end.

(** [v.get(key, default)]: only a [dict] has the method. *)
Definition py_get (v : pyval) (key : string) (default : pyval) : M pyval :=
  match v with
  | PDict d =>
      ret (match dict_get d key with Some x => x | None => default end)
  | _ =>
      raise (mk_exn AttributeError
               ("'" ++ type_name v ++ "' object has no attribute 'get'"))
  end.

(** [openai.ChatCompletion.create(...)] *)
Definition chat_completion_call (r : chat_request) : M chat_response :=
  fun st =>
    let st1 := log_call (ChatCompletion r) st in
    match chat_completion_create r (world st1) with
    | (inl e, w) => (Raised e, set_world w st1)
    | (inr resp, w) => (Ok resp, set_world w st1)
    end.

(** [response['choices'][0]] *)
Definition first_choice (r : chat_response) : M chat_choice :=
  match choices r with
  | c :: _ => ret c
  | [] => raise (mk_exn OtherException "list index out of range")
  end.

(** *** Configuration *)

Record Config : Type := mk_Config {
  OPENAI_API_KEY : string;
  BASE_URL : string;
  DEFAULT_POINTS : Z
}.

Definition missing_message (var_name : string) : string :=
  "Missing " ++ var_name
  ++ " environment variable. Please set it in Streamlit Cloud.".

(** [get_env_variable(var_name)] *)
Definition get_env_variable (var_name : string) : M string :=
  value <- os_getenv var_name ;;
  match value with
  | Some v =>
      if truthy v then ret v
      else emit (UiError (missing_message var_name)) ;; st_stop
  | None => emit (UiError (missing_message var_name)) ;; st_stop
  end.

(** [init_config()]: the three entries of the dict are evaluated in the
    order they are written.  (The page icon, a character outside the
    range of [string], is left out of [UiPageConfig].) *)
Definition init_config : M Config :=
  emit (UiPageConfig "DU Status Checker" "wide") ;;
  api_key <- get_env_variable "OPENAI_API_KEY" ;;
  base_url <- get_env_variable "BASE_URL" ;;
  points_text <- os_getenv_default "DEFAULT_POINTS" "24" ;;
  points <- int_of_str points_text ;;
  ret (mk_Config api_key base_url points).

(** *** Time window *)

(** [get_time_range()] *)
Definition get_time_range : M (string * string) :=
  fun st =>
    let now := datetime_now (world st) in
    let end_time := timestamp_ms (world st) now in
    let start_time := timestamp_ms (world st) (now - one_day_us) in
    (Ok (str_of_int start_time, str_of_int end_time), st).

(** *** The closures of [main] *)

Section Closures.
Variable config : Config.
Variables default_start_time default_end_time : string.

Definition base_url : string := BASE_URL config.
Definition du_name_endpoint : string := base_url ++ "/duId".
Definition du_status_endpoint : string :=
  base_url ++ "/duId/batch/withBandwidth".

Definition unknown_du_name : pyval := PStr "Unknown DU Name".
Definition error_fetching_name : pyval := PStr "Error fetching name".

Definition name_request (du_id : string) : request :=
  mk_request (du_name_endpoint ++ "/" ++ du_id ++ "/name") [] [] None 10.

(** [fetch_du_name(du_id)] *)
Definition fetch_du_name (du_id : string) : M pyval :=
  try_except
    (response <- requests_get_call (name_request du_id) ;;
     raise_for_status response ;;
     body <- response_json response ;;
     py_get body "name" unknown_du_name)
    (fun e =>
       if is_RequestException e then
         emit (UiWarning ("Network error fetching DU name: " ++ exn_str e)) ;;
         ret unknown_du_name
       else
         emit (UiError ("Error fetching DU name: " ++ exn_str e)) ;;
         ret error_fetching_name).

Definition status_request (du_id : string) : request :=
  mk_request du_status_endpoint
    [("Content-Type", "application/json")]
    [("start", PStr default_start_time);
     ("end", PStr default_end_time);
     ("points", PInt (DEFAULT_POINTS config))]
    (Some (PList [PStr du_id]))
    10.

(** The body of the loop of [fetch_du_status]: one request, and one
    assignment to [results[du_id]] on each of the three paths. *)
Definition fetch_one_status (results : dict pyval) (du_id : string)
  : M (dict pyval) :=
  try_except
    (response <- requests_get_call (status_request du_id) ;;
     raise_for_status response ;;
     body <- response_json response ;;
     ret (dict_set results du_id body))
    (fun e =>
       if is_RequestException e then
         emit (UiWarning
                 ("Network error for DU " ++ du_id ++ ": " ++ exn_str e)) ;;
         ret (dict_set results du_id (PStr ("Network Error: " ++ exn_str e)))
       else
         emit (UiError
                 ("Error processing DU " ++ du_id ++ ": " ++ exn_str e)) ;;
         ret (dict_set results du_id
                (PStr ("Processing Error: " ++ exn_str e)))).

(** [fetch_du_status(du_ids)] *)
Definition fetch_du_status (du_ids : list string) : M (dict pyval) :=
  for_each du_ids [] fetch_one_status.

Definition gpt_request (key : option string) (data : dict pyval)
  : chat_request :=
  mk_chat_request key "gpt-4o-mini"
    "You are an assistant analyzing DU status data." (PDict data) "0.1".

(** [analyze_with_gpt(data)] *)
Definition analyze_with_gpt (data : dict pyval) : M pyval :=
  try_except
    (st <- get_state ;;
     response <- chat_completion_call (gpt_request (openai_api_key st) data) ;;
     choice <- first_choice response ;;
     ret (content (message choice)))
    (fun e =>
       if is_OpenAIError e then
         emit (UiError ("OpenAI API error: " ++ exn_str e)) ;;
         ret (PStr "Error analyzing data with GPT")
       else
         emit (UiError ("Unexpected error during analysis: " ++ exn_str e)) ;;
         ret (PStr "Error processing analysis")).

(** *** The button handler *)

(** [[du.strip() for du in du_input.split(",") if du.strip()]] *)
Definition parse_du_ids (du_input : string) : list string :=
  map strip (filter (fun du => truthy (strip du)) (split "," du_input)).

(** One turn of the loop over [statuses.items()]. *)
Definition render_one (collected_data : dict pyval)
    (item : string * pyval) : M (dict pyval) :=
  let '(du_id, status) := item in
  du_name <- fetch_du_name du_id ;;
  emit (UiName du_id du_name) ;;
  if is_dict status then
    emit (UiJson status) ;;
    ret (dict_set collected_data du_id
           (PDict [("name", du_name); ("status", status)]))
  else
    emit (UiStatusError du_id status) ;;
    ret collected_data.

(** The loop that builds [collected_data]; its value is the dict. *)
Definition render_statuses (statuses : dict pyval) : M (dict pyval) :=
  emit (UiSubheader "DU Status Results") ;;
  for_each statuses [] render_one.

(** [if collected_data: ...] *)
Definition summarize (collected_data : dict pyval) : M unit :=
  match collected_data with
  | [] => ret tt
  | _ :: _ =>
      emit (UiSubheader "LLM Detailed Analysis") ;;
      emit (UiSpinner "Analyzing data with GPT...") ;;
      explanation <- analyze_with_gpt collected_data ;;
      emit (UiWrite "**Analysis**:") ;;
      emit (UiMarkdown explanation)
  end.

(** What follows the validation of the input, from the identifier list
    on.  The value is [collected_data]. *)
Definition check_du_ids (du_ids : list string) : M (dict pyval) :=
  statuses <- fetch_du_status du_ids ;;
  collected_data <- render_statuses statuses ;;
  summarize collected_data ;;
  ret collected_data.

(** The body of [if st.button("Check DU Status"):].  The value is the
    [collected_data] of the run, [None] when the input is rejected and
    none is built. *)
Definition on_click (du_input : string) : M (option (dict pyval)) :=
  if negb (truthy (strip du_input)) then
    emit (UiError "Please enter at least one DU ID.") ;;
    ret None
  else
    emit (UiSpinner "Fetching DU status and names...") ;;
    collected_data <- check_du_ids (parse_du_ids du_input) ;;
    ret (Some collected_data).

End Closures.

(** [st.text_area(...)] and [st.button(...)] *)
Definition st_text_area (label placeholder : string) : M string :=
  emit (UiTextArea label placeholder) ;;
  st <- get_state ;;
  ret (text_area_value st).

Definition st_button (label : string) : M bool :=
  emit (UiButton label) ;;
  st <- get_state ;;
  ret (button_pressed st).

(** [main()] *)
Definition main : M unit :=
  config <- init_config ;;
  set_openai_api_key (OPENAI_API_KEY config) ;;
  window <- get_time_range ;;
  let '(default_start_time, default_end_time) := window in
  emit (UiTitle "DU Status Identification") ;;
  emit (UiWrite
          "Enter Deployment Unit (DU) IDs manually to fetch their status and associated names.") ;;
  du_input <- st_text_area "Enter DU IDs (comma-separated)"
                "e.g., 1639, 2092" ;;
  clicked <- st_button "Check DU Status" ;;
  if clicked then
    on_click config default_start_time default_end_time du_input ;;
    ret tt
  else ret tt.

End Program.

(* ================================================================== *)
(** ** Notions the statements use *)

(** A string that is empty or made of whitespace only. *)
Fixpoint all_space (s : string) : bool :=
  match s with
  | EmptyString => true
  | String c s' => is_space c && all_space s'
  end.

(** The identifier list as the specification words it: split on commas,
    trim every token, drop the empty ones. *)
Definition tokens_spec (du_input : string) : list string :=
  filter truthy (map strip (split "," du_input)).

Definition mem (x : string) (l : list string) : bool :=
  existsb (String.eqb x) l.

(** The distinct elements of a list in the order of their first
    occurrence: an element is kept unless it was [seen] before. *)
Fixpoint first_seen (seen l : list string) : list string :=
  match l with
  | [] => []
  | x :: l' =>
      if mem x seen then first_seen seen l'
      else x :: first_seen (x :: seen) l'
  end.

Definition distinct (l : list string) : list string := first_seen [] l.

(** A variable that [os.getenv] does not find, or finds empty. *)
Definition is_missing (env : dict string) (name : string) : bool :=
  match dict_get env name with
  | None => true
  | Some v => is_empty v
  end.

Definition required_variables : list string :=
  ["OPENAI_API_KEY"; "BASE_URL"].

(** The status codes [raise_for_status] raises on. *)
Definition http_error (r : response) : bool :=
  (400 <=? status_code r) && (status_code r <? 600).

(** Whether a status code is one of the 2xx codes. *)
Definition is_2xx (r : response) : bool :=
  (200 <=? status_code r) && (status_code r <? 300).

Definition network_error (e : exn) : pyval :=
  PStr ("Network Error: " ++ exn_str e).

Definition processing_error (e : exn) : pyval :=
  PStr ("Processing Error: " ++ exn_str e).

Definition http_error_message (r : response) : string :=
  str_of_int (status_code r)
  ++ (if status_code r <? 500 then " Client Error: " else " Server Error: ")
  ++ reason r ++ " for url: " ++ resp_url r.

(** The value [fetch_du_status] stores for an identifier, read off the
    answer of the world to the request for it. *)
Definition stored_status (answer : exn + response) : pyval :=
  match answer with
  | inl e => if is_RequestException e then network_error e
             else processing_error e
  | inr r =>
      if http_error r then
        PStr ("Network Error: " ++ http_error_message r)
      else match resp_json r with
           | inl e => if is_RequestException e then network_error e
                      else processing_error e
           | inr v => v
           end
  end.

(** The name the resolver returns, read off the answer of the world. *)
Definition fetched_name (answer : exn + response) : pyval :=
  match answer with
  | inl e =>
      if is_RequestException e then unknown_du_name else error_fetching_name
  | inr r =>
      if http_error r then unknown_du_name
      else match resp_json r with
           | inl e =>
               if is_RequestException e then unknown_du_name
               else error_fetching_name
           | inr (PDict d) =>
               match dict_get d "name" with
               | Some x => x
               | None => unknown_du_name
               end
           | inr _ => error_fetching_name
           end
  end.

(** The calls of the summarizer a run makes for a [collected_data]. *)
Definition chat_calls (key : option string) (collected : dict pyval)
  : list call :=
  match collected with
  | [] => []
  | _ :: _ => [ChatCompletion (gpt_request key collected)]
  end.

(** The two strings [fetch_du_name] returns on a failure. *)
Definition is_sentinel (v : pyval) : bool :=
  match v with
  | PStr s => String.eqb s "Unknown DU Name"
              || String.eqb s "Error fetching name"
  | _ => false
  end.

Fixpoint has_char (sep : ascii) (s : string) : bool :=
  match s with
  | EmptyString => false
  | String c s' => Ascii.eqb c sep || has_char sep s'
  end.

Definition env_value (env : dict string) (name default : string) : string :=
  match dict_get env name with
  | Some v => v
  | None => default
  end.

Definition page_config : ui_event := UiPageConfig "DU Status Checker" "wide".

Section Frames.
Context {World : Type} {Ext : External World}.

(** What a run never touches: the environment, the widget values and
    the [openai.api_key] global. *)
Definition same_session (st st' : State World) : Prop :=
  environ st' = environ st
  /\ text_area_value st' = text_area_value st
  /\ button_pressed st' = button_pressed st
  /\ openai_api_key st' = openai_api_key st.

(** The state after [requests.get]: the call is logged and the world
    has moved on. *)
Definition after_get (r : request) (st : State World) : State World :=
  set_world (snd (requests_get r (world st))) (log_call (HttpGet r) st).

End Frames.

(* ================================================================== *)
(** ** A scripted world for the examples *)

(** The world holds the answers still to be given: an HTTP answer is
    used up by the first request to its URL for its identifier, and a
    request without an answer left finds the connection refused. *)
Record Script : Type := mk_Script {
  http_answers : list (string * (exn + response));
  chat_answer : exn + chat_response;
  clock_us : Z
}.

Definition request_key (r : request) : string :=
  match req_data r with
  | Some (PList [PStr du_id]) => req_url r ++ " " ++ du_id
  | _ => req_url r
  end.

Fixpoint take_answer (k : string) (l : list (string * (exn + response)))
  : option (exn + response) * list (string * (exn + response)) :=
  match l with
  | [] => (None, [])
  | (k', a) :: l' =>
      if String.eqb k' k then (Some a, l')
      else let '(r, rest) := take_answer k l' in (r, (k', a) :: rest)
  end.

Definition connection_refused : exn :=
  mk_exn RequestException "Connection refused".

#[export] Instance Script_External : External Script := {
  requests_get r w :=
    match take_answer (request_key r) (http_answers w) with
    | (Some a, rest) => (a, mk_Script rest (chat_answer w) (clock_us w))
    | (None, rest) => (inl connection_refused, w)
    end;
  chat_completion_create r w := (chat_answer w, w);
  datetime_now w := clock_us w;
  timestamp_ms w d := d / 1000
}.

Definition ok_json (v : pyval) : exn + response :=
  inr (mk_response 200 "OK" "" (inr v)).

Definition http_status (code : Z) (why : string) (v : pyval)
  : exn + response :=
  inr (mk_response code why "" (inr v)).

Definition example_config : Config :=
  mk_Config "sk-test" "http://api" 24.

Definition status_url : string := "http://api/duId/batch/withBandwidth".
Definition name_url (du_id : string) : string :=
  "http://api/duId/" ++ du_id ++ "/name".

Definition chat_ok (text : string) : exn + chat_response :=
  inr (mk_chat_response [mk_chat_choice (mk_chat_message (PStr text))]).

Definition start_state (env : dict string) (du_input : string)
    (clicked : bool) (w : Script) : State Script :=
  mk_State env du_input clicked None w [] [].

Definition good_env : dict string :=
  [("OPENAI_API_KEY", "sk-test"); ("BASE_URL", "http://api")].

(** The worlds and states of the examples. *)
Definition biflow_active : pyval := PDict [("BIFLOW", PStr "active")].

Definition scenario_world : Script :=
  mk_Script
    [(status_url ++ " 1639", ok_json biflow_active);
     (name_url "1639", ok_json (PDict [("name", PStr "Router-A")]));
     (status_url ++ " 9999",
      http_status 500 "Internal Server Error" PNone)]
    (chat_ok "All components are active.")
    1700000000000000.

Definition scenario_state (du_input : string) : State Script :=
  start_state good_env du_input true scenario_world.

(** The name endpoint answers 300 with a body that has a name. *)
Definition multiple_choices_world : Script :=
  mk_Script
    [(name_url "1639",
      http_status 300 "Multiple Choices"
        (PDict [("name", PStr "Router-A")]))]
    (chat_ok "") 1700000000000000.

Definition multiple_choices_state : State Script :=
  start_state good_env "1639" true multiple_choices_world.



Definition no_base_url_state : State Script :=
  start_state [("OPENAI_API_KEY", "sk-test"); ("BASE_URL", "")] "1639" true
    scenario_world.

Definition no_required_state : State Script :=
  start_state [] "1639" true scenario_world.

(** A host whose local time is one hour ahead of UTC until the wall
    clock reads [dst_switch_us] and two hours ahead from then on (the
    last Sunday of March 2023 in central Europe).  Nothing answers its
    requests. *)
Record DstHost : Type := mk_DstHost { wall_clock_us : Z }.

Definition dst_switch_us : Z := 1679796000 * 1000000.

#[export] Instance DstHost_External : External DstHost := {
  requests_get r w := (inl connection_refused, w);
  chat_completion_create r w := (inl connection_refused, w);
  datetime_now w := wall_clock_us w;
  timestamp_ms w d :=
    if d <? dst_switch_us then (d - 3600 * 1000000) / 1000
    else (d - 7200 * 1000000) / 1000
}.


(* ================================================================== *)
(** ** Notions for the page as a whole *)

(** An identifier as the parser hands it on: not empty, nothing to trim,
    and no comma inside. *)
Definition clean_identifier (t : string) : Prop :=
  t <> "" /\ strip t = t /\ has_char "," t = false.

(** The identifiers the page has a name line for, in the order shown. *)
Definition shown_names (page : list ui_event) : list string :=
  flat_map (fun e => match e with UiName du_id _ => [du_id] | _ => [] end)
    page.

(** [not d] for a dict. *)
Definition is_empty_dict {V} (d : dict V) : bool :=
  match d with [] => true | _ :: _ => false end.

(** The events that are name lines. *)
Definition is_name (e : ui_event) : bool :=
  match e with UiName _ _ => true | _ => false end.

(** A status request was answered with a failure: the request raised,
    the status code is one [raise_for_status] raises on, or the body is
    one [response.json()] raises on. *)
Definition failed_answer (answer : exn + response) : bool :=
  match answer with
  | inl _ => true
  | inr r =>
      http_error r
      || match resp_json r with inl _ => true | inr _ => false end
  end.

Section PageLoad.
Context {World : Type} {Ext : External World}.

(** The pair [get_time_range()] computes in a world. *)
Definition time_window (w : World) : string * string :=
  (str_of_int (timestamp_ms w (datetime_now w - one_day_us)),
   str_of_int (timestamp_ms w (datetime_now w))).

Definition with_api_key (k : string) (st : State World) : State World :=
  mk_State (environ st) (text_area_value st) (button_pressed st)
    (Some k) (world st) (ui st) (calls st).

(** The state in which the button is looked at: the configuration is
    loaded, the key is stored, and the title, the introduction and the
    two widgets are on the page. *)
Definition before_click (config : Config) (st : State World)
  : State World :=
  add_ui [UiButton "Check DU Status"]
    (add_ui [UiTextArea "Enter DU IDs (comma-separated)" "e.g., 1639, 2092"]
       (add_ui
          [UiWrite
             "Enter Deployment Unit (DU) IDs manually to fetch their status and associated names."]
          (add_ui [UiTitle "DU Status Identification"]
             (with_api_key (OPENAI_API_KEY config)
                (add_ui [page_config] st))))).

(** The configuration a process environment amounts to, for a sample
    count [n]. *)
Definition config_of_env (env : dict string) (n : Z) : Config :=
  mk_Config (env_value env "OPENAI_API_KEY" "")
    (env_value env "BASE_URL" "") n.

End PageLoad.

(** More worlds for the examples. *)
Definition provider_error_world : Script :=
  mk_Script
    [(status_url ++ " 1639", ok_json biflow_active);
     (name_url "1639", ok_json (PDict [("name", PStr "Router-A")]))]
    (inl (mk_exn OpenAIError "Rate limit reached"))
    1700000000000000.

Definition idle_state : State Script :=
  start_state good_env "1639" false scenario_world.

(* ================================================================== *)
(** ** Strings: what [strip], [split] and [join] do *)

Lemma is_empty_true (s : string) : is_empty s = true <-> s = "".
Proof. destruct s; simpl; split; congruence. Qed.

Lemma rstrip_empty (s : string) : rstrip s = "" <-> all_space s = true.
Proof.
  induction s as [|c s IH]; simpl.
  - tauto.
  - destruct (is_space c); simpl.
    + destruct (rstrip s) eqn:R; simpl.
      * tauto.
      * split; [discriminate|].
        intros A. apply IH in A. discriminate.
    + split; discriminate.
Qed.

Lemma lstrip_empty (s : string) : lstrip s = "" <-> all_space s = true.
Proof.
  induction s as [|c s IH]; simpl.
  - tauto.
  - destruct (is_space c); simpl; [exact IH|].
    split; discriminate.
Qed.

Lemma lstrip_head (s : string) (c : ascii) (t : string) :
  lstrip s = String c t -> is_space c = false.
Proof.
  induction s as [|a s IH]; simpl; [discriminate|].
  destruct (is_space a) eqn:A; [exact IH|].
  intros E. injection E as -> _. exact A.
Qed.

Lemma strip_empty (s : string) : strip s = "" <-> all_space s = true.
Proof.
  unfold strip. rewrite rstrip_empty. split.
  - intros A. apply lstrip_empty.
    destruct (lstrip s) as [|c t] eqn:L; [reflexivity|].
    apply lstrip_head in L. simpl in A. rewrite L in A. discriminate.
  - intros A. apply lstrip_empty in A. rewrite A. reflexivity.
Qed.

Lemma truthy_strip (s : string) : truthy (strip s) = negb (all_space s).
Proof.
  unfold truthy. f_equal.
  destruct (all_space s) eqn:A.
  - apply strip_empty in A. rewrite A. reflexivity.
  - destruct (is_empty (strip s)) eqn:E; [|reflexivity].
    apply is_empty_true, strip_empty in E. congruence.
Qed.

(** What [strip] returns does not start with whitespace. *)
Lemma rstrip_head (s : string) (c : ascii) :
  is_space c = false -> rstrip (String c s) = String c (rstrip s).
Proof. intros H. simpl. now rewrite H. Qed.

Lemma strip_head (s : string) (c : ascii) (t : string) :
  strip s = String c t -> is_space c = false.
Proof.
  unfold strip. destruct (lstrip s) as [|a u] eqn:L; [discriminate|].
  pose proof (lstrip_head _ _ _ L) as A.
  rewrite (rstrip_head u a A). intros E. injection E as <- _. exact A.
Qed.

Lemma split_nonempty (sep : ascii) (s : string) : split sep s <> [].
Proof.
  destruct s as [|c s]; simpl; [discriminate|].
  destruct (Ascii.eqb c sep); [discriminate|].
  destruct (split sep s); discriminate.
Qed.

(** Joining the pieces of a split with the separator gives the string
    back: [split] cuts at the separators and nowhere else. *)
Lemma join_split (sep : ascii) (s : string) :
  join (String sep "") (split sep s) = s.
Proof.
  induction s as [|c s IH]; simpl; [reflexivity|].
  destruct (Ascii.eqb c sep) eqn:E.
  - apply Ascii.eqb_eq in E. subst c.
    destruct (split sep s) as [|t ts] eqn:S.
    + now apply split_nonempty in S.
    + simpl in *. now rewrite IH.
  - destruct (split sep s) as [|t ts] eqn:S.
    + now apply split_nonempty in S.
    + simpl in *. destruct ts; simpl in *; now rewrite <- IH.
Qed.

Lemma split_pieces_free (sep : ascii) (s : string) :
  Forall (fun t => has_char sep t = false) (split sep s).
Proof.
  induction s as [|c s IH]; simpl.
  - constructor; [reflexivity|constructor].
  - destruct (Ascii.eqb c sep) eqn:E.
    + constructor; [reflexivity|exact IH].
    + destruct (split sep s) as [|t ts]; inversion IH; subst;
        constructor; simpl; try rewrite E; auto.
Qed.

Lemma filter_map_swap {A B} (f : A -> B) (p : B -> bool) (l : list A) :
  filter p (map f l) = map f (filter (fun x => p (f x)) l).
Proof.
  induction l as [|x l IH]; simpl; [reflexivity|].
  destruct (p (f x)); simpl; now rewrite IH.
Qed.

(* ================================================================== *)
(** ** Dicts *)

Lemma mem_In (x : string) (l : list string) : mem x l = true <-> In x l.
Proof.
  unfold mem. rewrite existsb_exists. split.
  - intros [y [H E]]. apply String.eqb_eq in E. now subst.
  - intros H. exists x. split; [exact H|apply String.eqb_refl].
Qed.

Lemma mem_false (x : string) (l : list string) :
  mem x l = false <-> ~ In x l.
Proof.
  rewrite <- mem_In. destruct (mem x l); split; congruence.
Qed.

Lemma keys_dict_set {V} (d : dict V) (k : string) (v : V) :
  keys (dict_set d k v)
  = if mem k (keys d) then keys d else (keys d ++ [k])%list.
Proof.
  induction d as [|[k' v'] d IH]; simpl; [reflexivity|].
  rewrite (String.eqb_sym k k').
  destruct (String.eqb k' k) eqn:E; simpl; [reflexivity|].
  unfold keys in *. rewrite IH. unfold mem.
  now destruct (existsb (String.eqb k) (map fst d)).
Qed.

Lemma dict_get_set_same {V} (d : dict V) (k : string) (v : V) :
  dict_get (dict_set d k v) k = Some v.
Proof.
  induction d as [|[k' v'] d IH]; simpl.
  - now rewrite String.eqb_refl.
  - destruct (String.eqb k' k) eqn:E; simpl; now rewrite E.
Qed.

Lemma dict_get_set_other {V} (d : dict V) (k k' : string) (v : V) :
  k <> k' -> dict_get (dict_set d k v) k' = dict_get d k'.
Proof.
  intros N. induction d as [|[k0 v0] d IH]; simpl.
  - apply String.eqb_neq in N. now rewrite N.
  - destruct (String.eqb k0 k) eqn:E; simpl.
    + apply String.eqb_eq in E. subst k0.
      apply String.eqb_neq in N. now rewrite N.
    + now rewrite IH.
Qed.

Lemma dict_get_None {V} (d : dict V) (k : string) :
  dict_get d k = None <-> ~ In k (keys d).
Proof.
  induction d as [|[k' v'] d IH]; simpl; [tauto|].
  destruct (String.eqb k' k) eqn:E.
  - apply String.eqb_eq in E. split; [discriminate|tauto].
  - apply String.eqb_neq in E. rewrite IH. tauto.
Qed.

Lemma dict_get_middle {V} (pre post : dict V) (k : string) (v : V) :
  ~ In k (keys pre) -> dict_get (pre ++ (k, v) :: post)%list k = Some v.
Proof.
  induction pre as [|[k' v'] pre IH]; simpl; intros N.
  - now rewrite String.eqb_refl.
  - destruct (String.eqb k' k) eqn:E.
    + apply String.eqb_eq in E. tauto.
    + apply IH. tauto.
Qed.

Lemma dict_get_In_keys {V} (d : dict V) (k : string) (v : V) :
  dict_get d k = Some v -> In k (keys d).
Proof.
  intros H. destruct (in_dec string_dec k (keys d)) as [I|N]; [exact I|].
  apply dict_get_None in N. congruence.
Qed.

Lemma keys_app {V} (a b : dict V) :
  keys (a ++ b)%list = (keys a ++ keys b)%list.
Proof. apply map_app. Qed.

Lemma first_seen_ext (s1 s2 l : list string) :
  (forall x, mem x s1 = mem x s2) -> first_seen s1 l = first_seen s2 l.
Proof.
  revert s1 s2. induction l as [|x l IH]; intros s1 s2 H; simpl.
  - reflexivity.
  - rewrite <- H. destruct (mem x s1); [now apply IH|].
    f_equal. apply IH. intros y. unfold mem in *. simpl. now rewrite H.
Qed.

Lemma mem_app (x : string) (l1 l2 : list string) :
  mem x (l1 ++ l2) = mem x l1 || mem x l2.
Proof. unfold mem. apply existsb_app. Qed.

Lemma first_seen_not_seen (seen l : list string) (x : string) :
  In x (first_seen seen l) -> In x l /\ ~ In x seen.
Proof.
  revert seen. induction l as [|y l IH]; intros seen; simpl; [tauto|].
  destruct (mem y seen) eqn:E.
  - intros H. apply IH in H. tauto.
  - intros [->|H].
    + apply mem_false in E. tauto.
    + apply IH in H. simpl in H. tauto.
Qed.

Lemma first_seen_In (seen l : list string) (x : string) :
  In x l -> ~ In x seen -> In x (first_seen seen l).
Proof.
  revert seen. induction l as [|y l IH]; intros seen; simpl; [tauto|].
  intros [->|H] N.
  - apply mem_false in N. rewrite N. now left.
  - destruct (mem y seen) eqn:E; [now apply IH|].
    destruct (string_dec y x) as [->|D]; [now left|].
    right. apply IH; [exact H|]. simpl. tauto.
Qed.

Lemma first_seen_NoDup (seen l : list string) : NoDup (first_seen seen l).
Proof.
  revert seen. induction l as [|y l IH]; intros seen; simpl.
  - constructor.
  - destruct (mem y seen); [apply IH|].
    constructor; [|apply IH].
    intros H. apply first_seen_not_seen in H. simpl in H. tauto.
Qed.

(* ================================================================== *)
(** ** Runs of the program *)

Section Runs.
Context {World : Type} {Ext : External World}.

Lemma same_session_refl (st : State World) : same_session st st.
Proof. repeat split. Qed.

Lemma same_session_trans (a b c : State World) :
  same_session a b -> same_session b c -> same_session a c.
Proof.
  unfold same_session. intros (?&?&?&?) (?&?&?&?).
  repeat split; congruence.
Qed.

Lemma same_session_add_ui (es : list ui_event) (st : State World) :
  same_session st (add_ui es st).
Proof. repeat split. Qed.

Lemma requests_get_call_run (r : request) (st : State World) :
  requests_get_call r st
  = (match fst (requests_get r (world st)) with
     | inl e => Raised e
     | inr resp => Ok resp
     end, after_get r st).
Proof.
  unfold requests_get_call, after_get. simpl.
  destruct (requests_get r (world st)) as [[e|resp] w]; reflexivity.
Qed.

Lemma raise_for_status_run (r : response) (st : State World) :
  raise_for_status r st
  = (if http_error r
     then Raised (mk_exn RequestException (http_error_message r))
     else Ok tt, st).
Proof.
  unfold raise_for_status, http_error, http_error_message.
  destruct (400 <=? status_code r) eqn:A, (status_code r <? 500) eqn:B,
    (500 <=? status_code r) eqn:C, (status_code r <? 600) eqn:D;
    simpl; try reflexivity; lia.
Qed.

Variable config : Config.
Variables default_start_time default_end_time : string.

#[local] Abbreviation status_req :=
  (status_request config default_start_time default_end_time).
#[local] Abbreviation fetch_one :=
  (fetch_one_status config default_start_time default_end_time).
#[local] Abbreviation fetch_statuses :=
  (fetch_du_status config default_start_time default_end_time).
#[local] Abbreviation name_req := (name_request config).
#[local] Abbreviation fetch_name := (fetch_du_name config).
#[local] Abbreviation render1 := (render_one config).
#[local] Abbreviation render := (render_statuses config).
#[local] Abbreviation check_ids :=
  (check_du_ids config default_start_time default_end_time).
#[local] Abbreviation click :=
  (on_click config default_start_time default_end_time).

(** One turn of the status loop always comes back, with the entry for
    the identifier set to what the answer of the world amounts to. *)
Lemma fetch_one_status_run (results : dict pyval) (du_id : string)
    (st : State World) :
  exists st',
    fetch_one results du_id st
    = (Ok (dict_set results du_id
             (stored_status
                (fst (requests_get (status_req du_id) (world st))))),
       st')
    /\ calls st' = (calls st ++ [HttpGet (status_req du_id)])%list
    /\ world st' = snd (requests_get (status_req du_id) (world st))
    /\ same_session st st'.
Proof.
  unfold fetch_one_status, try_except, bind.
  rewrite requests_get_call_run. unfold after_get.
  destruct (requests_get (status_req du_id) (world st)) as [[e|r] w];
    simpl.
  - destruct (is_RequestException e); simpl;
      eexists; repeat split; reflexivity.
  - rewrite raise_for_status_run.
    destruct (http_error r); simpl.
    + eexists; repeat split; reflexivity.
    + unfold response_json. destruct (resp_json r) as [e|v]; simpl.
      * destruct (is_RequestException e); simpl;
          eexists; repeat split; reflexivity.
      * eexists; repeat split; reflexivity.
Qed.

Lemma for_each_app {A S} (l1 l2 : list A) (acc : S)
    (body : S -> A -> M World S) (st : State World) :
  for_each (l1 ++ l2) acc body st
  = bind (for_each l1 acc body) (fun a => for_each l2 a body) st.
Proof.
  revert acc st. induction l1 as [|x l1 IH]; intros acc st; simpl.
  - reflexivity.
  - unfold bind in *. destruct (body acc x st) as [[a|e|] st1];
      [|reflexivity|reflexivity].
    apply IH.
Qed.

(** The status loop from any accumulator. *)
Lemma fetch_loop_run (du_ids : list string) :
  forall (acc : dict pyval) (st : State World),
  exists results st',
    for_each du_ids acc fetch_one st = (Ok results, st')
    /\ keys results = (keys acc ++ first_seen (keys acc) du_ids)%list
    /\ calls st'
       = (calls st ++ map (fun i => HttpGet (status_req i)) du_ids)%list
    /\ same_session st st'
    /\ (forall k, ~ In k du_ids -> dict_get results k = dict_get acc k).
Proof.
  induction du_ids as [|x l IH]; intros acc st; simpl.
  - exists acc, st. rewrite !app_nil_r.
    refine (conj _ (conj _ (conj _ (conj _ _))));
      auto using same_session_refl.
  - destruct (fetch_one_status_run acc x st) as (st1 & R & C & _ & S).
    unfold bind. rewrite R.
    match type of R with _ = (Ok ?a, _) => set (acc1 := a) in * end.
    destruct (IH acc1 st1) as (results & st' & R' & K & C' & S' & G).
    exists results, st'. refine (conj _ (conj _ (conj _ (conj _ _)))).
    + exact R'.
    + rewrite K. unfold acc1. rewrite keys_dict_set.
      destruct (mem x (keys acc)) eqn:E; [reflexivity|].
      rewrite <- app_assoc. simpl. do 2 f_equal.
      apply first_seen_ext. intros y. rewrite mem_app.
      unfold mem. simpl. now rewrite orb_false_r, orb_comm.
    + rewrite C', C, <- app_assoc. reflexivity.
    + eapply same_session_trans; eassumption.
    + intros k N. rewrite G by tauto.
      unfold acc1. apply dict_get_set_other. tauto.
Qed.

Lemma fetch_du_status_run (du_ids : list string) (st : State World) :
  exists results st',
    fetch_statuses du_ids st = (Ok results, st')
    /\ keys results = distinct du_ids
    /\ calls st'
       = (calls st ++ map (fun i => HttpGet (status_req i)) du_ids)%list
    /\ same_session st st'.
Proof.
  destruct (fetch_loop_run du_ids [] st) as (r & st' & R & K & C & S & _).
  exists r, st'. auto.
Qed.

Lemma fetch_du_name_run (du_id : string) (st : State World) :
  exists st',
    fetch_name du_id st
    = (Ok (fetched_name
             (fst (requests_get (name_req du_id) (world st)))), st')
    /\ calls st' = (calls st ++ [HttpGet (name_req du_id)])%list
    /\ world st' = snd (requests_get (name_req du_id) (world st))
    /\ same_session st st'.
Proof.
  unfold fetch_du_name, try_except, bind.
  rewrite requests_get_call_run. unfold after_get.
  destruct (requests_get (name_req du_id) (world st)) as [[e|r] w];
    simpl.
  - destruct (is_RequestException e); simpl;
      eexists; repeat split; reflexivity.
  - rewrite raise_for_status_run.
    destruct (http_error r); simpl.
    + eexists; repeat split; reflexivity.
    + unfold response_json. destruct (resp_json r) as [e|v]; simpl.
      * destruct (is_RequestException e); simpl;
          eexists; repeat split; reflexivity.
      * destruct v; simpl; eexists; repeat split; reflexivity.
Qed.

(** One turn of the rendering loop: one name request, and an entry for
    the identifier exactly when its status is a dict. *)
Lemma render_one_run (collected : dict pyval) (du_id : string)
    (status : pyval) (st : State World) :
  exists name st1 st',
    fetch_name du_id st = (Ok name, st1)
    /\ render1 collected (du_id, status) st
       = (Ok (if is_dict status
              then dict_set collected du_id
                     (PDict [("name", name); ("status", status)])
              else collected), st')
    /\ calls st' = (calls st ++ [HttpGet (name_req du_id)])%list
    /\ same_session st st'.
Proof.
  destruct (fetch_du_name_run du_id st) as (st1 & R & C & _ & S).
  eexists; exists st1. unfold render_one, bind. rewrite R.
  unfold emit. destruct (is_dict status); simpl;
    eexists; (split; [reflexivity|]); (split; [reflexivity|]);
    (split; [exact C|exact S]).
Qed.

Lemma render_loop_run (statuses : dict pyval) :
  forall (acc : dict pyval) (st : State World),
  exists collected st',
    for_each statuses acc render1 st = (Ok collected, st')
    /\ calls st'
       = (calls st
          ++ map (fun i => HttpGet (name_req i)) (keys statuses))%list
    /\ same_session st st'
    /\ (forall k, ~ In k (keys statuses) ->
        dict_get collected k = dict_get acc k).
Proof.
  induction statuses as [|[x status] l IH]; intros acc st;
    cbn [for_each keys map fst].
  - exists acc, st. rewrite app_nil_r.
    refine (conj _ (conj _ (conj _ _))); auto using same_session_refl.
  - destruct (render_one_run acc x status st)
      as (name & st0 & st1 & _ & R & C & S).
    unfold bind. rewrite R.
    match type of R with _ = (Ok ?a, _) => set (acc1 := a) in * end.
    destruct (IH acc1 st1) as (collected & st' & R' & C' & S' & G).
    exists collected, st'. refine (conj _ (conj _ (conj _ _))).
    + exact R'.
    + rewrite C', C, <- app_assoc. reflexivity.
    + eapply same_session_trans; eassumption.
    + intros k N. simpl in N. rewrite G by (unfold keys; tauto).
      unfold acc1. destruct (is_dict status); [|reflexivity].
      apply dict_get_set_other. tauto.
Qed.

Lemma render_statuses_run (statuses : dict pyval) (st : State World) :
  exists collected st',
    render statuses st = (Ok collected, st')
    /\ calls st'
       = (calls st
          ++ map (fun i => HttpGet (name_req i)) (keys statuses))%list
    /\ same_session st st'
    /\ (forall k, ~ In k (keys statuses) -> dict_get collected k = None).
Proof.
  unfold render_statuses, bind, emit.
  destruct (render_loop_run statuses []
              (add_ui [UiSubheader "DU Status Results"] st))
    as (collected & st' & R & C & S & G).
  exists collected, st'. refine (conj R (conj C (conj _ G))).
  eapply same_session_trans; [apply same_session_add_ui|exact S].
Qed.

(** The summarizer always comes back, after exactly one call. *)
Lemma analyze_with_gpt_run (data : dict pyval) (st : State World) :
  exists v st',
    analyze_with_gpt data st = (Ok v, st')
    /\ calls st'
       = (calls st
          ++ [ChatCompletion (gpt_request (openai_api_key st) data)])%list
    /\ same_session st st'.
Proof.
  unfold analyze_with_gpt, try_except, bind, get_state,
    chat_completion_call.
  simpl.
  destruct (chat_completion_create _ (world st)) as [[e|r] w]; simpl.
  - destruct (is_OpenAIError e); simpl;
      do 2 eexists; repeat split; reflexivity.
  - unfold first_choice. destruct (choices r) as [|c cs]; simpl;
      do 2 eexists; repeat split; reflexivity.
Qed.

Lemma summarize_run (collected : dict pyval) (st : State World) :
  exists st',
    summarize collected st = (Ok tt, st')
    /\ calls st'
       = (calls st ++ chat_calls (openai_api_key st) collected)%list
    /\ same_session st st'.
Proof.
  destruct collected as [|x c]; simpl.
  - exists st. rewrite app_nil_r. repeat split.
  - unfold bind, emit.
    match goal with
    | |- context [analyze_with_gpt ?d ?s] =>
        destruct (analyze_with_gpt_run d s) as (v & st1 & R & C & S)
    end.
    rewrite R. eexists. split; [reflexivity|].
    split; [exact C|].
    destruct S as (?&?&?&?). repeat split; assumption.
Qed.

(** The whole run from the identifier list on: one status request per
    identifier, one name request per distinct identifier, and one call
    of the summarizer when something was collected. *)
Lemma check_du_ids_run (du_ids : list string) (st : State World) :
  exists statuses st1 collected st2 st',
    fetch_statuses du_ids st = (Ok statuses, st1)
    /\ render statuses st1 = (Ok collected, st2)
    /\ summarize collected st2 = (Ok tt, st')
    /\ check_ids du_ids st = (Ok collected, st')
    /\ keys statuses = distinct du_ids
    /\ calls st'
       = (calls st
          ++ map (fun i => HttpGet (status_req i)) du_ids
          ++ map (fun i => HttpGet (name_req i)) (keys statuses)
          ++ chat_calls (openai_api_key st) collected)%list
    /\ same_session st st'.
Proof.
  destruct (fetch_du_status_run du_ids st)
    as (statuses & st1 & R1 & K & C1 & S1).
  destruct (render_statuses_run statuses st1)
    as (collected & st2 & R2 & C2 & S2 & _).
  destruct (summarize_run collected st2) as (st3 & R3 & C3 & S3).
  exists statuses, st1, collected, st2, st3.
  unfold check_du_ids, bind.
  rewrite R1, R2, R3. simpl.
  refine (conj eq_refl (conj eq_refl (conj eq_refl (conj eq_refl
            (conj K (conj _ _)))))).
  - rewrite C3, C2, C1, <- !app_assoc.
    destruct S1 as (_&_&_&E1), S2 as (_&_&_&E2). now rewrite E2, E1.
  - eauto using same_session_trans.
Qed.

(** The rendering loop at one item of [statuses]: the entry of its
    identifier is decided there and stays. *)
Lemma render_statuses_at (pre post : dict pyval) (X : string)
    (status : pyval) (st : State World) :
  NoDup (keys (pre ++ (X, status) :: post)%list) ->
  exists c1 s1 name s2 collected st',
    render pre st = (Ok c1, s1)
    /\ fetch_name X s1 = (Ok name, s2)
    /\ render (pre ++ (X, status) :: post)%list st = (Ok collected, st')
    /\ dict_get collected X
       = if is_dict status
         then Some (PDict [("name", name); ("status", status)])
         else None.
Proof.
  intros ND. rewrite keys_app in ND. simpl in ND.
  apply NoDup_remove_2 in ND.
  assert (Npre : ~ In X (keys pre)) by (rewrite in_app_iff in ND; tauto).
  assert (Npost : ~ In X (keys post)) by (rewrite in_app_iff in ND; tauto).
  unfold render_statuses, bind, emit.
  set (st0 := add_ui [UiSubheader "DU Status Results"] st).
  rewrite for_each_app. unfold bind.
  destruct (render_loop_run pre [] st0) as (c1 & s1 & R1 & _ & _ & G1).
  unfold dict in *. rewrite R1. cbn [for_each]. unfold bind.
  destruct (render_one_run c1 X status s1)
    as (name & s2 & s3 & F & R & _ & _).
  rewrite R.
  match type of R with _ = (Ok ?a, _) => set (c2 := a) in * end.
  destruct (render_loop_run post c2 s3) as (collected & st' & R3 & _ & _ & G3).
  unfold dict in *. rewrite R3.
  exists c1, s1, name, s2, collected, st'.
  refine (conj eq_refl (conj F (conj eq_refl _))).
  rewrite (G3 X Npost). unfold c2.
  destruct (is_dict status).
  - apply dict_get_set_same.
  - rewrite (G1 X Npre). reflexivity.
Qed.

Lemma filter_is_chat_http {A} (f : A -> request) (l : list A) :
  filter is_chat (map (fun i => HttpGet (f i)) l) = [].
Proof. induction l; simpl; auto. Qed.

Lemma filter_is_chat_chat_calls (key : option string) (c : dict pyval) :
  filter is_chat (chat_calls key c) = chat_calls key c.
Proof. destruct c; reflexivity. Qed.

(** A click, in full: a rejected input shows the validation error and
    nothing else happens; any other input runs the checks on the
    identifiers parsed from it. *)
Lemma on_click_run (du_input : string) (st : State World) :
  (all_space du_input = true
   /\ click du_input st
      = (Ok None, add_ui [UiError "Please enter at least one DU ID."] st))
  \/ (all_space du_input = false
      /\ exists (statuses collected : dict pyval) st',
           click du_input st = (Ok (Some collected), st')
           /\ calls st'
              = (calls st
                 ++ map (fun i => HttpGet (status_req i))
                      (parse_du_ids du_input)
                 ++ map (fun i => HttpGet (name_req i)) (keys statuses)
                 ++ chat_calls (openai_api_key st) collected)%list
           /\ same_session st st').
Proof.
  unfold on_click. rewrite truthy_strip, negb_involutive.
  destruct (all_space du_input) eqn:A; [left|right]; split; auto.
  unfold bind, emit.
  set (st0 := add_ui [UiSpinner "Fetching DU status and names..."] st).
  destruct (check_du_ids_run (parse_du_ids du_input) st0)
    as (statuses & st1 & collected & st2 & st' & _ & _ & _ & R & _ & C & S).
  rewrite R. exists statuses, collected, st'.
  refine (conj eq_refl (conj C _)).
  eapply same_session_trans; [apply same_session_add_ui|exact S].
Qed.

End Runs.

(* ================================================================== *)
(** ** The status fetcher *)

(** C10.  Called with an empty identifier list, [fetch_du_status]
    returns the empty mapping and issues no HTTP request: the state, and
    with it the log of calls and the world, is left as it was. *)
Theorem fetch_du_status_empty {World : Type} {Ext : External World}
    (config : Config) (default_start_time default_end_time : string)
    (st : State World) :
  exists results st',
    fetch_du_status config default_start_time default_end_time [] st
    = (Ok results, st')
    /\ results = []
    /\ calls st' = calls st
    /\ world st' = world st
    /\ ui st' = ui st.
Proof.
  exists [], st. unfold fetch_du_status. cbn [for_each].
  split; [reflexivity|]. repeat split.
Qed.

(** C1.  For every list of identifiers [fetch_du_status] returns a
    mapping; its keys are the distinct identifiers of the list in the
    order of their first occurrence, so each identifier of the list has
    exactly one entry; one request is made for every element of the
    list, in order, whatever the earlier ones ran into; and the entry of
    an identifier is the one its last occurrence wrote, namely what the
    answer to that request amounts to: the parsed body, or a
    ["Network Error: ..."] or ["Processing Error: ..."] string. *)
Theorem fetch_du_status_one_entry_per_identifier
    {World : Type} {Ext : External World}
    (config : Config) (default_start_time default_end_time : string)
    (du_ids : list string) (st : State World) :
  exists results st',
    fetch_du_status config default_start_time default_end_time du_ids st
    = (Ok results, st')
    /\ keys results = distinct du_ids
    /\ NoDup (keys results)
    /\ (forall k, In k (keys results) <-> In k du_ids)
    /\ calls st'
       = (calls st
          ++ map (fun i => HttpGet (status_request config default_start_time
                                      default_end_time i)) du_ids)%list
    /\ (forall pre du_id post,
          du_ids = (pre ++ du_id :: post)%list -> ~ In du_id post ->
          exists r1 st1,
            fetch_du_status config default_start_time default_end_time
              pre st = (Ok r1, st1)
            /\ dict_get results du_id
               = Some (stored_status
                         (fst (requests_get
                                 (status_request config default_start_time
                                    default_end_time du_id) (world st1))))).
Proof.
  destruct (fetch_du_status_run config default_start_time default_end_time
              du_ids st) as (results & st' & R & K & C & _).
  exists results, st'.
  refine (conj R (conj K (conj _ (conj _ (conj C _))))).
  - rewrite K. apply first_seen_NoDup.
  - intros k. rewrite K. unfold distinct. split.
    + intros H. now apply first_seen_not_seen in H.
    + intros H. apply first_seen_In; [exact H|]. simpl. tauto.
  - intros pre du_id post -> N.
    unfold fetch_du_status in R. rewrite for_each_app in R.
    unfold bind in R.
    destruct (fetch_du_status_run config default_start_time
                default_end_time pre st) as (r1 & st1 & R1 & _).
    exists r1, st1. split; [exact R1|].
    unfold fetch_du_status in R1. rewrite R1 in R.
    cbn [for_each] in R. unfold bind in R.
    destruct (fetch_one_status_run config default_start_time
                default_end_time r1 du_id st1) as (st2 & R2 & _).
    rewrite R2 in R.
    match type of R2 with _ = (Ok ?a, _) => set (r2 := a) in * end.
    destruct (fetch_loop_run config default_start_time default_end_time
                post r2 st2) as (r3 & st3 & R3 & _ & _ & _ & G).
    unfold dict in *. rewrite R3 in R. injection R as <- _.
    rewrite (G du_id N). unfold r2. apply dict_get_set_same.
Qed.

(* ================================================================== *)
(** ** The button handler *)

Lemma keys_split {V} (d : dict V) (k : string) :
  In k (keys d) -> exists pre v post, d = (pre ++ (k, v) :: post)%list.
Proof.
  intros H. unfold keys in H. apply in_map_iff in H.
  destruct H as ([k' v] & E & I). simpl in E. subst k'.
  apply in_split in I. destruct I as (pre & post & ->).
  now exists pre, v, post.
Qed.

(** C2.  In a run of the checks, the [collected_data] that is handed to
    the summarizer has an entry for an identifier exactly when the
    fetched status mapping holds a dict for it; at each item
    [(X, status)] of the status mapping the entry of [X] is
    [{"name": name, "status": status}], with [name] the value that
    [fetch_du_name(X)] returned at that turn of the loop, when [status]
    is a dict, and there is no entry otherwise. *)
Theorem collected_data_iff_status_is_dict
    {World : Type} {Ext : External World}
    (config : Config) (default_start_time default_end_time : string)
    (du_ids : list string) (st : State World) :
  exists statuses st1 collected st2 st',
    fetch_du_status config default_start_time default_end_time du_ids st
    = (Ok statuses, st1)
    /\ render_statuses config statuses st1 = (Ok collected, st2)
    /\ summarize collected st2 = (Ok tt, st')
    /\ check_du_ids config default_start_time default_end_time du_ids st
       = (Ok collected, st')
    /\ (forall X,
          In X (keys collected)
          <-> exists d, dict_get statuses X = Some (PDict d))
    /\ (forall pre X status post,
          statuses = (pre ++ (X, status) :: post)%list ->
          exists c1 s1 name s2,
            render_statuses config pre st1 = (Ok c1, s1)
            /\ fetch_du_name config X s1 = (Ok name, s2)
            /\ dict_get statuses X = Some status
            /\ dict_get collected X
               = if is_dict status
                 then Some (PDict [("name", name); ("status", status)])
                 else None).
Proof.
  destruct (check_du_ids_run config default_start_time default_end_time
              du_ids st)
    as (statuses & st1 & collected & st2 & st' & R1 & R2 & R3 & R & K & _).
  exists statuses, st1, collected, st2, st'.
  refine (conj R1 (conj R2 (conj R3 (conj R _)))).
  assert (ND : NoDup (keys statuses))
    by (rewrite K; apply first_seen_NoDup).
  assert (AT : forall pre X status post,
             statuses = (pre ++ (X, status) :: post)%list ->
             exists c1 s1 name s2,
               render_statuses config pre st1 = (Ok c1, s1)
               /\ fetch_du_name config X s1 = (Ok name, s2)
               /\ dict_get statuses X = Some status
               /\ dict_get collected X
                  = if is_dict status
                    then Some (PDict [("name", name); ("status", status)])
                    else None).
  { intros pre X status post E. subst statuses.
    destruct (render_statuses_at config pre post X status st1 ND)
      as (c1 & s1 & name & s2 & collected' & st2' & P & F & R' & G).
    rewrite R2 in R'. injection R' as <- _.
    exists c1, s1, name, s2. refine (conj P (conj F (conj _ G))).
    apply dict_get_middle. rewrite keys_app in ND. simpl in ND.
    apply NoDup_remove_2 in ND. rewrite in_app_iff in ND. tauto. }
  split; [|exact AT].
  intros X. split.
  - intros I.
    destruct (in_dec string_dec X (keys statuses)) as [IS|NS].
    + destruct (keys_split _ _ IS) as (pre & status & post & E).
      destruct (AT pre X status post E) as (_ & _ & name & _ & _ & _ & S & G).
      destruct status; simpl in G;
        try (apply dict_get_None in G; tauto).
      eexists. exact S.
    + destruct (render_statuses_run config statuses st1)
        as (collected' & st2' & R' & _ & _ & G).
      rewrite R2 in R'. injection R' as <- _.
      apply G, dict_get_None in NS. tauto.
  - intros (d & S).
    destruct (keys_split _ _ (dict_get_In_keys _ _ _ S))
      as (pre & status & post & E).
    destruct (AT pre X status post E) as (_ & _ & name & _ & _ & _ & S' & G).
    rewrite S in S'. injection S' as <-. simpl in G.
    eapply dict_get_In_keys. exact G.
Qed.

(** C3.  The identifier list computed from the input is the list of the
    comma-separated tokens, each trimmed, without the empty ones, in
    their order and with their repetitions; a click on an input that is
    not blank hands exactly this list to the checks, whose first step is
    [fetch_du_status]; and the input ["1639, 2092"] gives
    [["1639"; "2092"]]. *)
Theorem identifier_list_is_trimmed_tokens
    {World : Type} {Ext : External World}
    (config : Config) (default_start_time default_end_time : string) :
  (forall du_input, parse_du_ids du_input = tokens_spec du_input)
  /\ (forall du_input (st : State World),
        truthy (strip du_input) = true ->
        on_click config default_start_time default_end_time du_input st
        = (emit (UiSpinner "Fetching DU status and names...") ;;
           statuses <- fetch_du_status config default_start_time
                         default_end_time (tokens_spec du_input) ;;
           collected_data <- render_statuses config statuses ;;
           summarize collected_data ;;
           ret (Some collected_data)) st)
  /\ parse_du_ids "1639, 2092" = ["1639"; "2092"]
  /\ parse_du_ids " b,a ,, b" = ["b"; "a"; "b"].
Proof.
  assert (P : forall du_input, parse_du_ids du_input = tokens_spec du_input).
  { intros du_input. unfold parse_du_ids, tokens_spec.
    symmetry. apply filter_map_swap. }
  refine (conj P (conj _ (conj eq_refl eq_refl))).
  intros du_input st T. unfold on_click. rewrite T, P. simpl.
  unfold check_du_ids, bind, emit.
  destruct (fetch_du_status _ _ _ _ _) as [[statuses|e|] st1];
    try reflexivity.
  destruct (render_statuses _ _ _) as [[collected|e|] st2];
    try reflexivity.
  destruct (summarize _ _) as [[[]|e|] st3]; reflexivity.
Qed.

(** C4.  In every click the summarizer is called exactly when the
    [collected_data] built by the rendering loop is not empty, once and
    with that mapping as its data; a click whose input is rejected
    builds no [collected_data] and makes no such call. *)
Theorem summarizer_called_iff_collected_nonempty
    {World : Type} {Ext : External World}
    (config : Config) (default_start_time default_end_time : string)
    (du_input : string) (st : State World) :
  exists r st' new,
    on_click config default_start_time default_end_time du_input st
    = (Ok r, st')
    /\ calls st' = (calls st ++ new)%list
    /\ filter is_chat new
       = match r with
         | Some collected => chat_calls (openai_api_key st) collected
         | None => []
         end
    /\ ((exists req, In (ChatCompletion req) new)
        <-> exists collected, r = Some collected /\ collected <> [])
    /\ (forall req, In (ChatCompletion req) new ->
        exists collected,
          r = Some collected /\ collected <> []
          /\ chat_data req = PDict collected).
Proof.
  assert (F : forall r (new : list call),
             filter is_chat new
             = match r with
               | Some collected => chat_calls (openai_api_key st) collected
               | None => []
               end ->
             ((exists req, In (ChatCompletion req) new)
              <-> exists collected : dict pyval,
                    r = Some collected /\ collected <> [])
             /\ (forall req, In (ChatCompletion req) new ->
                 exists collected,
                   r = Some collected /\ collected <> []
                   /\ chat_data req = PDict collected)).
  { intros r new E.
    assert (I : forall req,
               In (ChatCompletion req) new
               <-> In (ChatCompletion req) (filter is_chat new)).
    { intros req. rewrite filter_In. simpl. tauto. }
    split; [split|].
    - intros (req & H). apply I in H. rewrite E in H.
      destruct r as [[|x c]|]; simpl in H; try tauto.
      exists (x :: c). split; [reflexivity|discriminate].
    - intros (c & -> & N). destruct c as [|x c]; [congruence|].
      eexists. apply I. rewrite E. simpl. left. reflexivity.
    - intros req H. apply I in H. rewrite E in H.
      destruct r as [[|x c]|]; simpl in H; try tauto.
      destruct H as [H|[]]. injection H as <-.
      exists (x :: c). repeat split. discriminate. }
  destruct (on_click_run config default_start_time default_end_time
              du_input st)
    as [(_ & R)|(_ & statuses & collected & st' & R & C & _)].
  - exists None, (add_ui [UiError "Please enter at least one DU ID."] st), [].
    refine (conj R (conj _ (conj eq_refl _))).
    + simpl. now rewrite app_nil_r.
    + now apply F.
  - eexists _, st', _. refine (conj R (conj C _)).
    assert (E : forall a b c : list call,
               filter is_chat (a ++ b ++ c) =
               (filter is_chat a ++ filter is_chat b ++ filter is_chat c)%list)
      by (intros; now rewrite !filter_app).
    split; [|apply F]; rewrite E, !filter_is_chat_http,
      filter_is_chat_chat_calls; reflexivity.
Qed.

(* ================================================================== *)
(** ** The name resolver *)

(** C5, as the code has it.  [fetch_du_name] always returns a value: no
    exception leaves it.  When the request raises, when the status code
    is one of 400..599, when [response.json()] raises, or when the body
    is not a JSON object, the value is one of ["Unknown DU Name"] and
    ["Error fetching name"].  A response with any other status code is
    read like a success, whatever the code: the value is the ["name"]
    entry of the body, or ["Unknown DU Name"] when there is none. *)
Theorem fetch_du_name_sentinel_on_failure
    {World : Type} {Ext : External World}
    (config : Config) (du_id : string) (st : State World) :
  exists v st',
    fetch_du_name config du_id st = (Ok v, st')
    /\ match fst (requests_get (name_request config du_id) (world st)) with
       | inl e => is_sentinel v = true
       | inr r =>
           if http_error r then v = PStr "Unknown DU Name"
           else match resp_json r with
                | inl e => is_sentinel v = true
                | inr (PDict d) =>
                    v = match dict_get d "name" with
                        | Some x => x
                        | None => PStr "Unknown DU Name"
                        end
                | inr _ => v = PStr "Error fetching name"
                end
       end.
Proof.
  destruct (fetch_du_name_run config du_id st) as (st' & R & _).
  eexists _, st'. split; [exact R|].
  destruct (fst (requests_get (name_request config du_id) (world st)))
    as [e|r]; simpl.
  - now destruct (is_RequestException e).
  - destruct (http_error r); [reflexivity|].
    destruct (resp_json r) as [e|v].
    + now destruct (is_RequestException e).
    + destruct v; reflexivity.
Qed.

(* ================================================================== *)
(** ** Configuration *)

Section ConfigRuns.
Context {World : Type} {Ext : External World}.

Lemma get_env_variable_run (var_name : string) (st : State World) :
  get_env_variable var_name st
  = if is_missing (environ st) var_name
    then (Stopped, add_ui [UiError (missing_message var_name)] st)
    else (Ok (env_value (environ st) var_name ""), st).
Proof.
  unfold get_env_variable, bind, os_getenv, is_missing, env_value, truthy.
  destruct (dict_get (environ st) var_name) as [v|]; [|reflexivity].
  destruct (is_empty v); reflexivity.
Qed.

Lemma init_config_run (st : State World) :
  init_config st
  = let st0 := add_ui [page_config] st in
    if is_missing (environ st) "OPENAI_API_KEY" then
      (Stopped, add_ui [UiError (missing_message "OPENAI_API_KEY")] st0)
    else if is_missing (environ st) "BASE_URL" then
      (Stopped, add_ui [UiError (missing_message "BASE_URL")] st0)
    else
      let text := env_value (environ st) "DEFAULT_POINTS" "24" in
      match py_int text with
      | Some n =>
          (Ok (mk_Config (env_value (environ st) "OPENAI_API_KEY" "")
                 (env_value (environ st) "BASE_URL" "") n), st0)
      | None =>
          (Raised (mk_exn ValueError (int_error_message text)), st0)
      end.
Proof.
  unfold init_config, bind at 1, emit. fold page_config.
  unfold bind at 1. rewrite get_env_variable_run.
  change (environ (add_ui [page_config] st)) with (environ st).
  destruct (is_missing (environ st) "OPENAI_API_KEY"); [reflexivity|].
  unfold bind at 1. rewrite get_env_variable_run.
  change (environ (add_ui [page_config] st)) with (environ st).
  destruct (is_missing (environ st) "BASE_URL"); [reflexivity|].
  unfold bind, os_getenv_default, int_of_str. cbn zeta.
  change (environ (add_ui [page_config] st)) with (environ st).
  fold (env_value (environ st) "DEFAULT_POINTS" "24").
  destruct (py_int (env_value (environ st) "DEFAULT_POINTS" "24"));
    reflexivity.
Qed.

End ConfigRuns.

(** C8, as the code has it.  A required variable that is unset or empty
    stops the script where it is looked up, with the message
    ["Missing <name> environment variable. Please set it in Streamlit
    Cloud."] for its name and without a value.  [init_config] looks up
    [OPENAI_API_KEY] and then [BASE_URL]: with a required variable
    missing it stops at the first missing one, shows the message that
    names that one and no other, and returns no configuration; [main]
    stops in that same state, so nothing of the page follows.
    [BASE_URL] is named when [OPENAI_API_KEY] is set and not empty. *)
Theorem missing_required_variable_halts
    {World : Type} {Ext : External World}
    (st : State World) (v : string) :
  In v required_variables ->
  is_missing (environ st) v = true ->
  get_env_variable v st
  = (Stopped,
     add_ui
       [UiError
          ("Missing " ++ v
           ++ " environment variable. Please set it in Streamlit Cloud.")]
       st)
  /\ (let shown :=
        if is_missing (environ st) "OPENAI_API_KEY" then
          "Missing OPENAI_API_KEY environment variable. Please set it in Streamlit Cloud."
        else
          "Missing BASE_URL environment variable. Please set it in Streamlit Cloud." in
      let halted :=
        add_ui [UiError shown]
          (add_ui [UiPageConfig "DU Status Checker" "wide"] st) in
      init_config st = (Stopped, halted)
      /\ main st = (Stopped, halted)).
Proof.
  intros I Mv. split.
  - rewrite get_env_variable_run, Mv. reflexivity.
  - cbv zeta. unfold main, bind. rewrite init_config_run. cbv zeta.
    destruct (is_missing (environ st) "OPENAI_API_KEY") eqn:K.
    + split; reflexivity.
    + destruct I as [<-|[<-|[]]]; [congruence|].
      rewrite Mv. split; reflexivity.
Qed.


(** C7.  When the text of the input is empty or blank, a click shows the
    validation error, builds nothing, and leaves the log of outgoing
    calls and the world as they were: neither the status fetcher nor
    the name resolver nor the summarizer is called.  The same holds for
    the whole run of [main]: it makes no call, and when it gets as far
    as the button, the validation error is the last thing on the page. *)
Theorem blank_input_rejected_without_calls
    {World : Type} {Ext : External World} (st : State World) :
  all_space (text_area_value st) = true ->
  (forall config default_start_time default_end_time (st1 : State World),
     on_click config default_start_time default_end_time
       (text_area_value st) st1
     = (Ok None, add_ui [UiError "Please enter at least one DU ID."] st1))
  /\ exists r st',
       main st = (r, st')
       /\ calls st' = calls st
       /\ world st' = world st
       /\ (r = Ok tt -> button_pressed st = true ->
           exists shown,
             ui st'
             = (shown ++ [UiError "Please enter at least one DU ID."])%list).
Proof.
  intros A.
  assert (C : forall config default_start_time default_end_time
                (st1 : State World),
             on_click config default_start_time default_end_time
               (text_area_value st) st1
             = (Ok None,
                add_ui [UiError "Please enter at least one DU ID."] st1)).
  { intros. unfold on_click. rewrite truthy_strip, A. reflexivity. }
  split; [exact C|].
  unfold main, bind at 1. rewrite init_config_run. cbv zeta.
  destruct (is_missing (environ st) "OPENAI_API_KEY").
  { eexists _, _. split; [reflexivity|]. repeat split; discriminate. }
  destruct (is_missing (environ st) "BASE_URL").
  { eexists _, _. split; [reflexivity|]. repeat split; discriminate. }
  destruct (py_int _) as [n|].
  2:{ eexists _, _. split; [reflexivity|]. repeat split; discriminate. }
  unfold st_text_area, st_button, set_openai_api_key, get_time_range,
    get_state, emit, ret, bind.
  cbn [text_area_value button_pressed add_ui].
  destruct (button_pressed st).
  - rewrite C. eexists _, _. split; [reflexivity|].
    cbn [calls world ui add_ui]. repeat split. intros _ _.
    eexists. reflexivity.
  - eexists _, _. split; [reflexivity|]. repeat split. discriminate.
Qed.

(* ================================================================== *)
(** ** The scenarios, run *)

(** Scenario 3: HTTP 500 for ["9999"] is stored as a string that begins
    with ["Network Error:"], and nothing is collected for it. *)
Example status_500_is_network_error :
  fst (fetch_du_status example_config "0" "1" ["9999"] (scenario_state ""))
  = Ok [("9999",
         PStr "Network Error: 500 Server Error: Internal Server Error for url: ")]
  /\ fst (check_du_ids example_config "0" "1" ["9999"] (scenario_state ""))
     = Ok [].
Proof. split; reflexivity. Qed.

(** Scenario 4. *)
Example router_a_is_collected :
  fst (check_du_ids example_config "0" "1" ["1639"] (scenario_state ""))
  = Ok [("1639",
         PDict [("name", PStr "Router-A"); ("status", biflow_active)])].
Proof. reflexivity. Qed.

(** A repeated identifier keeps its first place and its last value. *)
Example repeated_identifier_last_write_wins :
  fst (fetch_du_status example_config "0" "1" ["1639"; "9999"; "1639"]
         (scenario_state ""))
  = Ok [("1639", PStr "Network Error: Connection refused");
        ("9999",
         PStr "Network Error: 500 Server Error: Internal Server Error for url: ")].
Proof. reflexivity. Qed.

Lemma fetch_du_status_one_entry_per_identifier_witness :
  exists results,
    fst (fetch_du_status example_config "0" "1" ["1639"; "9999"; "1639"]
           (scenario_state "")) = Ok results
    /\ keys results = ["1639"; "9999"]
    /\ dict_get results "1639"
       = Some (PStr "Network Error: Connection refused").
Proof.
  destruct (fetch_du_status_one_entry_per_identifier example_config "0" "1"
              ["1639"; "9999"; "1639"] (scenario_state ""))
    as (results & st' & R & K & _ & _ & _ & L).
  exists results. split; [rewrite R; reflexivity|]. split; [exact K|].
  destruct (L ["1639"; "9999"] "1639" [] eq_refl (fun H => H))
    as (r1 & st1 & R1 & G).
  rewrite G. vm_compute in R1. injection R1 as _ <-. reflexivity.
Defined.

Lemma collected_data_iff_status_is_dict_witness :
  exists collected,
    fst (check_du_ids example_config "0" "1" ["1639"] (scenario_state ""))
    = Ok collected
    /\ dict_get collected "1639"
       = Some (PDict [("name", PStr "Router-A"); ("status", biflow_active)]).
Proof.
  destruct (collected_data_iff_status_is_dict example_config "0" "1"
              ["1639"] (scenario_state ""))
    as (statuses & st1 & collected & st2 & st' & R1 & _ & _ & R & _ & AT).
  exists collected. split; [rewrite R; reflexivity|].
  vm_compute in R1. injection R1 as <- <-.
  destruct (AT [] "1639" biflow_active [] eq_refl)
    as (c1 & s1 & name & s2 & P & F & _ & G).
  rewrite G. vm_compute in P. injection P as _ <-.
  vm_compute in F. injection F as <- _. reflexivity.
Defined.

Lemma identifier_list_is_trimmed_tokens_witness :
  on_click example_config "0" "1" "1639, 2092" (scenario_state "1639, 2092")
  = (emit (UiSpinner "Fetching DU status and names...") ;;
     statuses <- fetch_du_status example_config "0" "1"
                   (tokens_spec "1639, 2092") ;;
     collected_data <- render_statuses example_config statuses ;;
     summarize collected_data ;;
     ret (Some collected_data)) (scenario_state "1639, 2092").
Proof.
  apply (proj1 (proj2 (identifier_list_is_trimmed_tokens
                         example_config "0" "1"))).
  reflexivity.
Defined.

Lemma summarizer_called_iff_collected_nonempty_witness :
  exists r st' new,
    on_click example_config "0" "1" "1639" (scenario_state "1639")
    = (Ok r, st')
    /\ calls st' = (calls (scenario_state "1639") ++ new)%list
    /\ exists req, In (ChatCompletion req) new.
Proof.
  destruct (summarizer_called_iff_collected_nonempty example_config "0" "1"
              "1639" (scenario_state "1639"))
    as (r & st' & new & R & C & _ & I & _).
  exists r, st', new. split; [exact R|]. split; [exact C|].
  apply I. vm_compute in R. injection R as <- _.
  eexists. split; [reflexivity|discriminate].
Defined.

Lemma blank_input_rejected_without_calls_witness :
  exists r st',
    main (scenario_state "   ") = (r, st')
    /\ calls st' = [] /\ world st' = scenario_world.
Proof.
  destruct (blank_input_rejected_without_calls (scenario_state "   ")
              eq_refl) as (_ & r & st' & R & C & W & _).
  exists r, st'. split; [exact R|]. split; [exact C|exact W].
Defined.

Lemma missing_required_variable_halts_witness :
  main no_base_url_state
  = (Stopped,
     add_ui
       [UiError
          "Missing BASE_URL environment variable. Please set it in Streamlit Cloud."]
       (add_ui [UiPageConfig "DU Status Checker" "wide"]
          no_base_url_state)).
Proof.
  refine (proj2 (proj2 (missing_required_variable_halts
                          no_base_url_state "BASE_URL" _ _))).
  - right. left. reflexivity.
  - reflexivity.
Defined.

(** With both required variables unset, [BASE_URL] is missing and the
    page names [OPENAI_API_KEY] only. *)
Lemma both_missing_names_only_api_key :
  is_missing (environ no_required_state) "BASE_URL" = true
  /\ fst (init_config no_required_state) = Stopped
  /\ ui (snd (init_config no_required_state))
     = [UiPageConfig "DU Status Checker" "wide";
        UiError
          "Missing OPENAI_API_KEY environment variable. Please set it in Streamlit Cloud."]
  /\ ~ In (UiError
            "Missing BASE_URL environment variable. Please set it in Streamlit Cloud.")
         (ui (snd (init_config no_required_state))).
Proof.
  repeat split. simpl. intros [H|[H|[]]]; discriminate.
Qed.


(** The name endpoint answers with status 300, which is not a 2xx code,
    and [fetch_du_name] returns the name in the body: neither of the
    two failure strings. *)
Lemma fetch_du_name_status_300_returns_name :
  exists r,
    fst (requests_get (name_request example_config "1639")
           (world multiple_choices_state)) = inr r
    /\ is_2xx r = false
    /\ fst (fetch_du_name example_config "1639" multiple_choices_state)
       = Ok (PStr "Router-A")
    /\ is_sentinel (PStr "Router-A") = false.
Proof. eexists. repeat split. Qed.


(* ================================================================== *)
(** ** More on the identifier list *)

Lemma rstrip_idempotent (s : string) : rstrip (rstrip s) = rstrip s.
Proof.
  induction s as [|c s IH]; simpl; [reflexivity|].
  destruct (is_space c && is_empty (rstrip s)) eqn:E; [reflexivity|].
  simpl. rewrite IH, E. reflexivity.
Qed.

Lemma strip_idempotent (s : string) : strip (strip s) = strip s.
Proof.
  unfold strip. destruct (lstrip s) as [|c t] eqn:L; [reflexivity|].
  pose proof (lstrip_head _ _ _ L) as A.
  rewrite (rstrip_head t c A). simpl lstrip. rewrite A.
  rewrite <- (rstrip_head t c A). apply rstrip_idempotent.
Qed.

Lemma has_char_lstrip (sep : ascii) (s : string) :
  has_char sep s = false -> has_char sep (lstrip s) = false.
Proof.
  induction s as [|c s IH]; simpl; [auto|].
  intros H. apply orb_false_iff in H. destruct H as [H1 H2].
  destruct (is_space c); [auto|]. simpl. now rewrite H1, H2.
Qed.

Lemma has_char_rstrip (sep : ascii) (s : string) :
  has_char sep s = false -> has_char sep (rstrip s) = false.
Proof.
  induction s as [|c s IH]; simpl; [auto|].
  intros H. apply orb_false_iff in H. destruct H as [H1 H2].
  destruct (is_space c && is_empty (rstrip s)); [reflexivity|].
  simpl. rewrite H1. now apply IH.
Qed.

Lemma split_free (sep : ascii) (t : string) :
  has_char sep t = false -> split sep t = [t].
Proof.
  induction t as [|c t IH]; simpl; [reflexivity|].
  intros H. apply orb_false_iff in H. destruct H as [H1 H2].
  rewrite H1, (IH H2). reflexivity.
Qed.

Lemma split_app_sep (sep : ascii) (t rest : string) :
  has_char sep t = false ->
  split sep (t ++ String sep rest) = t :: split sep rest.
Proof.
  induction t as [|c t IH]; simpl.
  - intros _. now rewrite Ascii.eqb_refl.
  - intros H. apply orb_false_iff in H. destruct H as [H1 H2].
    rewrite H1, (IH H2). reflexivity.
Qed.

Lemma split_join (sep : ascii) (l : list string) :
  l <> [] ->
  Forall (fun t => has_char sep t = false) l ->
  split sep (join (String sep "") l) = l.
Proof.
  induction l as [|t l IH]; [congruence|].
  intros _ F. inversion F as [|? ? Ft Fl]; subst.
  destruct l as [|t' l].
  - simpl. now apply split_free.
  - change (join (String sep "") (t :: t' :: l))
      with (t ++ String sep (join (String sep "") (t' :: l))).
    rewrite (split_app_sep _ _ _ Ft). f_equal.
    apply IH; [discriminate|exact Fl].
Qed.

(** X4.  Every identifier the parser hands on is clean: it is not empty,
    it has no whitespace left to trim, and it contains no comma. *)
Theorem parsed_identifiers_are_clean (du_input : string) :
  Forall clean_identifier (parse_du_ids du_input).
Proof.
  unfold parse_du_ids. apply Forall_forall. intros t H.
  apply in_map_iff in H. destruct H as (du & <- & I).
  apply filter_In in I. destruct I as [I T].
  refine (conj _ (conj (strip_idempotent du) _)).
  - intros E. rewrite E in T. discriminate.
  - pose proof (split_pieces_free "," du_input) as F.
    rewrite Forall_forall in F. specialize (F du I).
    unfold strip. now apply has_char_rstrip, has_char_lstrip.
Qed.

(** X5.  Joining clean identifiers with commas and parsing the text
    gives the identifiers back, in their order and with their
    repetitions. *)
Theorem parse_join_round_trip (du_ids : list string) :
  Forall clean_identifier du_ids ->
  parse_du_ids (join "," du_ids) = du_ids.
Proof.
  intros F. unfold parse_du_ids.
  destruct du_ids as [|t l]; [reflexivity|].
  rewrite split_join.
  - induction F as [|x xs (N & S & _) _ IH]; [reflexivity|].
    cbn [filter map]. rewrite S.
    destruct x; [congruence|]. cbn [truthy is_empty negb map].
    rewrite S. f_equal. exact IH.
  - discriminate.
  - eapply Forall_impl; [|exact F]. intros a (_ & _ & H). exact H.
Qed.

(* ================================================================== *)
(** ** More on the runs *)

Lemma shown_names_app (a b : list ui_event) :
  shown_names (a ++ b) = (shown_names a ++ shown_names b)%list.
Proof. apply flat_map_app. Qed.

Lemma failed_answer_not_dict (answer : exn + response) :
  failed_answer answer = true -> is_dict (stored_status answer) = false.
Proof.
  destruct answer as [e|r]; simpl.
  - intros _. now destruct (is_RequestException e).
  - destruct (http_error r); [reflexivity|]. simpl.
    destruct (resp_json r) as [e|v]; [|discriminate].
    intros _. now destruct (is_RequestException e).
Qed.

Section MoreRuns.
Context {World : Type} {Ext : External World}.
Variable config : Config.
Variables default_start_time default_end_time : string.

#[local] Abbreviation status_req :=
  (status_request config default_start_time default_end_time).
#[local] Abbreviation fetch_one :=
  (fetch_one_status config default_start_time default_end_time).
#[local] Abbreviation fetch_statuses :=
  (fetch_du_status config default_start_time default_end_time).
#[local] Abbreviation name_req := (name_request config).
#[local] Abbreviation fetch_name := (fetch_du_name config).
#[local] Abbreviation render1 := (render_one config).
#[local] Abbreviation render := (render_statuses config).
#[local] Abbreviation check_ids :=
  (check_du_ids config default_start_time default_end_time).
#[local] Abbreviation click :=
  (on_click config default_start_time default_end_time).

(** The entry of an identifier after the status loop is the one its
    last occurrence wrote. *)
Lemma fetch_du_status_last (pre post : list string) (du_id : string)
    (st : State World) :
  ~ In du_id post ->
  exists r1 st1 results st',
    fetch_statuses pre st = (Ok r1, st1)
    /\ fetch_statuses (pre ++ du_id :: post)%list st = (Ok results, st')
    /\ dict_get results du_id
       = Some (stored_status
                 (fst (requests_get (status_req du_id) (world st1)))).
Proof.
  intros N.
  destruct (fetch_du_status_run config default_start_time default_end_time
              pre st) as (r1 & st1 & R1 & _).
  destruct (fetch_one_status_run config default_start_time
              default_end_time r1 du_id st1) as (st2 & R2 & _).
  match type of R2 with _ = (Ok ?a, _) => set (r2 := a) in * end.
  destruct (fetch_loop_run config default_start_time default_end_time
              post r2 st2) as (r3 & st3 & R3 & _ & _ & _ & G).
  exists r1, st1, r3, st3. split; [exact R1|].
  split.
  - unfold fetch_du_status in *. rewrite for_each_app. unfold bind.
    unfold dict in *. rewrite R1. cbn [for_each]. unfold bind.
    rewrite R2. exact R3.
  - rewrite (G du_id N). unfold r2. apply dict_get_set_same.
Qed.

(** The keys of [collected_data] come in the order of the statuses. *)
Lemma render_loop_keys (statuses : dict pyval) :
  forall (acc : dict pyval) (st : State World),
  NoDup (keys acc ++ keys statuses) ->
  exists collected st',
    for_each statuses acc render1 st = (Ok collected, st')
    /\ keys collected
       = (keys acc
          ++ keys (filter (fun item => is_dict (snd item)) statuses))%list.
Proof.
  induction statuses as [|[x status] l IH]; intros acc st ND;
    cbn [for_each keys map fst filter snd] in *.
  - exists acc, st. now rewrite app_nil_r.
  - destruct (render_one_run config acc x status st)
      as (name & st0 & st1 & _ & R & _).
    unfold bind. rewrite R.
    match type of R with _ = (Ok ?a, _) => set (acc1 := a) in * end.
    assert (Nx : ~ In x (map fst acc)).
    { apply NoDup_remove_2 in ND. rewrite in_app_iff in ND. tauto. }
    destruct (is_dict status) eqn:D.
    + destruct (IH acc1 st1) as (collected & st' & R' & K).
      { unfold acc1. rewrite keys_dict_set.
        apply mem_false in Nx. unfold keys. rewrite Nx.
        now rewrite <- app_assoc. }
      exists collected, st'. split; [exact R'|].
      rewrite K. unfold acc1. rewrite keys_dict_set.
      apply mem_false in Nx. unfold keys. rewrite Nx.
      now rewrite <- app_assoc.
    + destruct (IH acc1 st1) as (collected & st' & R' & K).
      { unfold acc1. now apply NoDup_remove_1 in ND. }
      exists collected, st'. split; [exact R'|exact K].
Qed.

(** *** What the page lists *)

Lemma shown_names_other (page : list ui_event) (e : ui_event) :
  is_name e = false -> shown_names (page ++ [e]) = shown_names page.
Proof.
  intros H. rewrite shown_names_app.
  destruct e; try discriminate; simpl; apply app_nil_r.
Qed.

Lemma shown_names_name (page : list ui_event) (du_id : string)
    (du_name : pyval) :
  shown_names (page ++ [UiName du_id du_name])
  = (shown_names page ++ [du_id])%list.
Proof. now rewrite shown_names_app. Qed.

Ltac names_done :=
  cbn [ui add_ui set_world log_call fst snd];
  rewrite ?shown_names_name;
  rewrite ?shown_names_other by reflexivity;
  reflexivity.

Lemma fetch_one_status_names (results : dict pyval) (du_id : string)
    (st : State World) :
  shown_names (ui (snd (fetch_one results du_id st))) = shown_names (ui st).
Proof.
  unfold fetch_one_status, try_except, bind.
  rewrite requests_get_call_run. unfold after_get.
  destruct (requests_get (status_req du_id) (world st)) as [[e|r] w];
    cbn [fst snd].
  - destruct (is_RequestException e); unfold emit, ret; names_done.
  - rewrite raise_for_status_run.
    destruct (http_error r); cbn [is_RequestException exn_cls].
    + unfold emit, ret. names_done.
    + unfold response_json. destruct (resp_json r) as [e|v].
      * unfold raise. destruct (is_RequestException e);
          unfold emit, ret; names_done.
      * unfold ret. names_done.
Qed.

Lemma fetch_loop_names (du_ids : list string) :
  forall (acc : dict pyval) (st : State World),
    shown_names (ui (snd (for_each du_ids acc fetch_one st)))
    = shown_names (ui st).
Proof.
  induction du_ids as [|x l IH]; intros acc st; cbn [for_each].
  - reflexivity.
  - destruct (fetch_one_status_run config default_start_time
                default_end_time acc x st) as (st1 & R & _).
    pose proof (fetch_one_status_names acc x st) as N.
    unfold bind. rewrite R in *. cbn [snd] in N.
    rewrite IH. exact N.
Qed.

Lemma fetch_du_name_names (du_id : string) (st : State World) :
  shown_names (ui (snd (fetch_name du_id st))) = shown_names (ui st).
Proof.
  unfold fetch_du_name, try_except, bind.
  rewrite requests_get_call_run. unfold after_get.
  destruct (requests_get (name_req du_id) (world st)) as [[e|r] w];
    cbn [fst snd].
  - destruct (is_RequestException e); unfold emit, ret; names_done.
  - rewrite raise_for_status_run.
    destruct (http_error r); cbn [is_RequestException exn_cls].
    + unfold emit, ret. names_done.
    + unfold response_json. destruct (resp_json r) as [e|v].
      * unfold raise. destruct (is_RequestException e);
          unfold emit, ret; names_done.
      * unfold ret, py_get.
        destruct v; unfold raise, ret;
          cbn [is_RequestException exn_cls]; unfold emit, ret;
          names_done.
Qed.

Lemma render_one_names (collected : dict pyval) (du_id : string)
    (status : pyval) (st : State World) :
  shown_names (ui (snd (render1 collected (du_id, status) st)))
  = (shown_names (ui st) ++ [du_id])%list.
Proof.
  unfold render_one, bind.
  destruct (fetch_du_name_run config du_id st) as (s1 & F & _).
  pose proof (fetch_du_name_names du_id st) as N0.
  rewrite F in *. cbn [snd] in N0. unfold emit, ret.
  destruct (is_dict status); cbn [snd ui add_ui];
    rewrite ?shown_names_other by reflexivity;
    rewrite shown_names_name, N0; reflexivity.
Qed.

Lemma render_loop_names (statuses : dict pyval) :
  forall (acc : dict pyval) (st : State World),
    shown_names (ui (snd (for_each statuses acc render1 st)))
    = (shown_names (ui st) ++ keys statuses)%list.
Proof.
  induction statuses as [|[x status] l IH]; intros acc st;
    cbn [for_each keys map fst].
  - now rewrite app_nil_r.
  - destruct (render_one_run config acc x status st)
      as (name & st0 & st1 & _ & R & _).
    pose proof (render_one_names acc x status st) as N.
    unfold bind. rewrite R in *. cbn [snd] in N.
    rewrite IH, N, <- app_assoc. reflexivity.
Qed.

Lemma summarize_names (collected : dict pyval) (st : State World) :
  shown_names (ui (snd (summarize collected st))) = shown_names (ui st).
Proof.
  destruct collected as [|x c]; [reflexivity|].
  unfold summarize, bind, emit, analyze_with_gpt, try_except, bind,
    get_state, chat_completion_call.
  cbn [world add_ui log_call set_world].
  destruct (chat_completion_create _ (world st)) as [[e|r] w].
  - destruct (is_OpenAIError e); unfold emit, ret; names_done.
  - unfold first_choice. destruct (choices r) as [|ch chs];
      unfold raise, ret; cbn [is_OpenAIError exn_cls];
      unfold emit, ret; names_done.
Qed.

End MoreRuns.

Lemma on_click_calls {World : Type} {Ext : External World}
    (config : Config) (default_start_time default_end_time : string)
    (du_input : string) (st : State World) :
  all_space du_input = false ->
  exists (collected : dict pyval) st',
    on_click config default_start_time default_end_time du_input st
    = (Ok (Some collected), st')
    /\ calls st'
       = (calls st
          ++ map (fun i => HttpGet (status_request config default_start_time
                                      default_end_time i))
               (parse_du_ids du_input)
          ++ map (fun i => HttpGet (name_request config i))
               (distinct (parse_du_ids du_input))
          ++ chat_calls (openai_api_key st) collected)%list.
Proof.
  intros A. unfold on_click. rewrite truthy_strip, A. cbn [negb].
  unfold bind, emit.
  set (st0 := add_ui [UiSpinner "Fetching DU status and names..."] st).
  destruct (check_du_ids_run config default_start_time default_end_time
              (parse_du_ids du_input) st0)
    as (statuses & st1 & collected & st2 & st' & _ & _ & _ & R & K & C & _).
  rewrite R. exists collected, st'. split; [reflexivity|].
  rewrite C, K. reflexivity.
Qed.

(* ================================================================== *)
(** ** Further properties of the program *)

(** X1.  [analyze_with_gpt] never raises.  It returns the content of the
    first choice when the provider answers with one; on a provider
    error it shows ["OpenAI API error: ..."] and returns
    ["Error analyzing data with GPT"]; on any other exception, and on
    an answer without choices, it shows
    ["Unexpected error during analysis: ..."] and returns
    ["Error processing analysis"].  Nothing already on the page is
    removed. *)
Theorem analyze_with_gpt_outcomes {World : Type} {Ext : External World}
    (data : dict pyval) (st : State World) :
  exists v st',
    analyze_with_gpt data st = (Ok v, st')
    /\ match fst (chat_completion_create
                   (gpt_request (openai_api_key st) data) (world st)) with
       | inl e =>
           if is_OpenAIError e then
             v = PStr "Error analyzing data with GPT"
             /\ ui st' = (ui st ++ [UiError ("OpenAI API error: "
                                             ++ exn_str e)])%list
           else
             v = PStr "Error processing analysis"
             /\ ui st'
                = (ui st ++ [UiError ("Unexpected error during analysis: "
                                      ++ exn_str e)])%list
       | inr response =>
           match choices response with
           | choice :: _ =>
               v = content (message choice) /\ ui st' = ui st
           | [] =>
               v = PStr "Error processing analysis"
               /\ ui st'
                  = (ui st
                     ++ [UiError "Unexpected error during analysis: list index out of range"])%list
           end
       end.
Proof.
  unfold analyze_with_gpt, try_except, bind, get_state,
    chat_completion_call.
  cbn [world log_call].
  destruct (chat_completion_create _ (world st)) as [[e|r] w]; cbn [fst].
  - destruct (is_OpenAIError e); unfold emit, ret;
      do 2 eexists; repeat split.
  - unfold first_choice. destruct (choices r) as [|c cs];
      unfold raise, ret; cbn [is_OpenAIError exn_cls]; unfold emit, ret;
      do 2 eexists; repeat split.
Qed.

(** X2.  An identifier whose last status request failed (the request
    raised, the status code was 400..599, or the body was not JSON) has
    no entry in [collected_data], whatever the other identifiers of the
    list met. *)
Theorem failed_status_is_not_collected
    {World : Type} {Ext : External World}
    (config : Config) (default_start_time default_end_time : string)
    (pre post : list string) (du_id : string) (st : State World) :
  ~ In du_id post ->
  failed_answer
    (fst (requests_get
            (status_request config default_start_time default_end_time
               du_id)
            (world (snd (fetch_du_status config default_start_time
                           default_end_time pre st))))) = true ->
  exists collected st',
    check_du_ids config default_start_time default_end_time
      (pre ++ du_id :: post)%list st = (Ok collected, st')
    /\ dict_get collected du_id = None.
Proof.
  intros N F.
  destruct (fetch_du_status_last config default_start_time default_end_time
              pre post du_id st N)
    as (r1 & st1 & results & st2 & R1 & R & G).
  rewrite R1 in F. cbn [snd] in F. apply failed_answer_not_dict in F.
  destruct (check_du_ids_run config default_start_time default_end_time
              (pre ++ du_id :: post)%list st)
    as (statuses & st1' & collected & st2' & st' & Rs & Rr & _ & Rc & K & _).
  rewrite R in Rs. injection Rs as <- <-.
  exists collected, st'. split; [exact Rc|].
  assert (ND : NoDup (keys results))
    by (rewrite K; apply first_seen_NoDup).
  destruct (keys_split _ _ (dict_get_In_keys _ _ _ G))
    as (a & v & b & E).
  subst results.
  assert (Na : ~ In du_id (keys a)).
  { rewrite keys_app in ND. simpl in ND. apply NoDup_remove_2 in ND.
    rewrite in_app_iff in ND. tauto. }
  rewrite (dict_get_middle a b du_id v Na) in G. injection G as ->.
  destruct (render_statuses_at config a b du_id _ st2 ND)
    as (c1 & s1 & name & s2 & collected' & st'' & _ & _ & Rr' & Gc).
  rewrite Rr in Rr'. injection Rr' as E _.
  rewrite E, Gc, F. reflexivity.
Qed.

(** X3.  A click on an input that is not blank makes, in this order: one
    status request per parsed identifier, repetitions included; one
    name request per distinct identifier, in the order of first
    occurrence and whether or not its status was fetched; and the call
    of the summarizer, if something was collected.  It always ends
    normally. *)
Theorem click_call_sequence {World : Type} {Ext : External World}
    (config : Config) (default_start_time default_end_time : string)
    (du_input : string) (st : State World) :
  all_space du_input = false ->
  let du_ids := parse_du_ids du_input in
  exists (collected : dict pyval) st',
    on_click config default_start_time default_end_time du_input st
    = (Ok (Some collected), st')
    /\ calls st'
       = (calls st
          ++ map (fun i => HttpGet (status_request config default_start_time
                                      default_end_time i)) du_ids
          ++ map (fun i => HttpGet (name_request config i))
               (distinct du_ids)
          ++ chat_calls (openai_api_key st) collected)%list
    /\ length (calls st')
       = (length (calls st) + length du_ids + length (distinct du_ids)
          + (if is_empty_dict collected then 0 else 1))%nat.
Proof.
  intros A du_ids.
  destruct (on_click_calls config default_start_time default_end_time
              du_input st A) as (collected & st' & R & C).
  exists collected, st'. refine (conj R (conj C _)).
  rewrite C, !length_app, !length_map. subst du_ids.
  destruct collected; simpl; lia.
Qed.

(** X6.  A click on an input that is not blank puts one name line on the
    page for each distinct identifier, in the order of first
    occurrence; an identifier that is repeated, or whose status could
    not be fetched, is listed once like any other. *)
Theorem click_lists_each_identifier_once
    {World : Type} {Ext : External World}
    (config : Config) (default_start_time default_end_time : string)
    (du_input : string) (st : State World) :
  all_space du_input = false ->
  shown_names
    (ui (snd (on_click config default_start_time default_end_time
                du_input st)))
  = (shown_names (ui st) ++ distinct (parse_du_ids du_input))%list.
Proof.
  intros A. unfold on_click. rewrite truthy_strip, A. cbn [negb].
  unfold bind at 1. unfold emit at 1.
  set (st0 := add_ui [UiSpinner "Fetching DU status and names..."] st).
  assert (N0 : shown_names (ui st0) = shown_names (ui st))
    by (unfold st0; cbn [ui add_ui]; now apply shown_names_other).
  unfold bind at 1.
  destruct (check_du_ids_run config default_start_time default_end_time
              (parse_du_ids du_input) st0)
    as (statuses & st1 & collected & st2 & st' & R1 & R2 & R3 & R & K & _).
  rewrite R. cbn [ret snd].
  pose proof (fetch_loop_names config default_start_time default_end_time
                (parse_du_ids du_input) [] st0) as N1.
  unfold fetch_du_status in R1. unfold dict in *. rewrite R1 in N1.
  cbn [snd] in N1.
  pose proof (render_loop_names config statuses []
                (add_ui [UiSubheader "DU Status Results"] st1)) as N2.
  unfold render_statuses, bind, emit in R2. unfold dict in *.
  rewrite R2 in N2. cbn [snd ui add_ui] in N2.
  rewrite shown_names_other in N2 by reflexivity.
  pose proof (summarize_names collected st2) as N3.
  unfold dict in *. rewrite R3 in N3. cbn [snd] in N3.
  rewrite N3, N2, N1, N0. unfold keys in K. unfold keys. now rewrite K.
Qed.

(** X7.  The keys of [collected_data] are the identifiers whose fetched
    status is a dict, in the order they have in the status mapping. *)
Theorem collected_keeps_status_order
    {World : Type} {Ext : External World}
    (config : Config) (default_start_time default_end_time : string)
    (du_ids : list string) (st : State World) :
  exists statuses st1 collected st',
    fetch_du_status config default_start_time default_end_time du_ids st
    = (Ok statuses, st1)
    /\ check_du_ids config default_start_time default_end_time du_ids st
       = (Ok collected, st')
    /\ keys collected
       = keys (filter (fun item => is_dict (snd item)) statuses).
Proof.
  destruct (check_du_ids_run config default_start_time default_end_time
              du_ids st)
    as (statuses & st1 & collected & st2 & st' & R1 & R2 & _ & R & K & _).
  exists statuses, st1, collected, st'.
  refine (conj R1 (conj R _)).
  destruct (render_loop_keys config statuses []
              (add_ui [UiSubheader "DU Status Results"] st1))
    as (collected' & st2' & R' & K').
  { cbn [keys map app]. fold (keys statuses). rewrite K.
    apply first_seen_NoDup. }
  unfold render_statuses, bind, emit in R2. unfold dict in *.
  rewrite R2 in R'. injection R' as E _. rewrite E. exact K'.
Qed.

(** X8.  An input that is not blank but holds no identifier (commas with
    nothing but whitespace between them) passes the validation: the
    click shows no error, makes no request and no call of the
    summarizer, and leaves an empty results section on the page. *)
Theorem separators_only_input_runs_empty
    {World : Type} {Ext : External World}
    (config : Config) (default_start_time default_end_time : string)
    (du_input : string) (st : State World) :
  all_space du_input = false ->
  parse_du_ids du_input = [] ->
  on_click config default_start_time default_end_time du_input st
  = (Ok (Some []),
     add_ui [UiSubheader "DU Status Results"]
       (add_ui [UiSpinner "Fetching DU status and names..."] st)).
Proof.
  intros A P. unfold on_click. rewrite truthy_strip, A, P. reflexivity.
Qed.

(* ================================================================== *)
(** ** The page as a whole *)

Lemma main_run {World : Type} {Ext : External World} (st : State World) :
  main st
  = match init_config st with
    | (Ok config, _) =>
        let window := time_window (world st) in
        if button_pressed st then
          match on_click config (fst window) (snd window)
                  (text_area_value st) (before_click config st) with
          | (Ok _, st') => (Ok tt, st')
          | (Raised e, st') => (Raised e, st')
          | (Stopped, st') => (Stopped, st')
          end
        else (Ok tt, before_click config st)
    | (Raised e, st') => (Raised e, st')
    | (Stopped, st') => (Stopped, st')
    end.
Proof.
  unfold main, bind at 1. rewrite init_config_run. cbv zeta.
  destruct (is_missing (environ st) "OPENAI_API_KEY"); [reflexivity|].
  destruct (is_missing (environ st) "BASE_URL"); [reflexivity|].
  destruct (py_int _) as [n|]; [|reflexivity].
  unfold st_text_area, st_button, set_openai_api_key, get_time_range,
    get_state, emit, ret, bind, before_click, with_api_key, time_window.
  cbn [text_area_value button_pressed add_ui world fst snd].
  destruct (button_pressed st); reflexivity.
Qed.

(** X9.  A configuration that [init_config] returns is complete: its key
    and its base URL are the values of [OPENAI_API_KEY] and [BASE_URL]
    in the environment, neither of them empty, and its sample count is
    what [int()] reads from [DEFAULT_POINTS], or from ["24"] when that
    variable is unset.  Loading it puts nothing on the page but the
    page settings. *)
Theorem init_config_returns_complete_config
    {World : Type} {Ext : External World}
    (st st' : State World) (config : Config) :
  init_config st = (Ok config, st') ->
  dict_get (environ st) "OPENAI_API_KEY" = Some (OPENAI_API_KEY config)
  /\ OPENAI_API_KEY config <> ""
  /\ dict_get (environ st) "BASE_URL" = Some (BASE_URL config)
  /\ BASE_URL config <> ""
  /\ py_int (env_value (environ st) "DEFAULT_POINTS" "24")
     = Some (DEFAULT_POINTS config)
  /\ st' = add_ui [page_config] st.
Proof.
  rewrite init_config_run. cbv zeta.
  unfold is_missing, env_value at 2 3.
  destruct (dict_get (environ st) "OPENAI_API_KEY") as [k|];
    [|discriminate].
  destruct (is_empty k) eqn:Ek; [discriminate|].
  destruct (dict_get (environ st) "BASE_URL") as [b|]; [|discriminate].
  destruct (is_empty b) eqn:Eb; [discriminate|].
  destruct (py_int _) as [n|]; [|discriminate].
  intros E. injection E as <- <-. cbn [OPENAI_API_KEY BASE_URL DEFAULT_POINTS].
  repeat split; try reflexivity; intros ->; discriminate.
Qed.


(** X11.  Without a click, [main] makes no call at all, whatever the
    text of the input is. *)
Theorem main_without_click_makes_no_call
    {World : Type} {Ext : External World} (st : State World) :
  button_pressed st = false ->
  calls (snd (main st)) = calls st /\ world (snd (main st)) = world st.
Proof.
  intros B. rewrite main_run, init_config_run, B. cbv zeta.
  destruct (is_missing (environ st) "OPENAI_API_KEY"); [now split|].
  destruct (is_missing (environ st) "BASE_URL"); [now split|].
  destruct (py_int _) as [n|]; now split.
Qed.

(** The calls of a whole run: none, or those of a click on an input
    that is not blank, made with the loaded configuration and the
    window computed when the page was loaded. *)
Lemma main_calls {World : Type} {Ext : External World} (st : State World) :
  calls (snd (main st)) = calls st
  \/ exists n (collected : dict pyval),
       is_missing (environ st) "OPENAI_API_KEY" = false
       /\ py_int (env_value (environ st) "DEFAULT_POINTS" "24") = Some n
       /\ button_pressed st = true
       /\ calls (snd (main st))
          = (calls st
             ++ map (fun i =>
                       HttpGet
                         (status_request (config_of_env (environ st) n)
                            (fst (time_window (world st)))
                            (snd (time_window (world st))) i))
                  (parse_du_ids (text_area_value st))
             ++ map (fun i =>
                       HttpGet
                         (name_request (config_of_env (environ st) n) i))
                  (distinct (parse_du_ids (text_area_value st)))
             ++ chat_calls
                  (Some (env_value (environ st) "OPENAI_API_KEY" ""))
                  collected)%list.
Proof.
  rewrite main_run, init_config_run. cbv zeta.
  destruct (is_missing (environ st) "OPENAI_API_KEY") eqn:K; [now left|].
  destruct (is_missing (environ st) "BASE_URL"); [now left|].
  destruct (py_int _) as [n|] eqn:P; [|now left].
  destruct (button_pressed st) eqn:B; [|now left].
  fold (config_of_env (environ st) n).
  destruct (all_space (text_area_value st)) eqn:A.
  - left. unfold on_click. rewrite truthy_strip, A. reflexivity.
  - right. exists n.
    destruct (on_click_calls (config_of_env (environ st) n)
                (fst (time_window (world st)))
                (snd (time_window (world st)))
                (text_area_value st)
                (before_click (config_of_env (environ st) n) st) A)
      as (collected & st' & R & C).
    exists collected. rewrite R. cbn [snd].
    refine (conj eq_refl (conj eq_refl (conj eq_refl _))).
    exact C.
Qed.

(** X12.  Every HTTP request of a run is for an identifier the user
    typed, goes to the configured base URL with a timeout of 10, and is
    one of two: the status request, a GET of
    [<base>/duId/batch/withBandwidth] with the JSON content type, the
    body [[du_id]] and the parameters start, end and points, where
    start and end are the strings [get_time_range] gave when the page
    was loaded and points is the sample count of the configuration; or
    the name request, a GET of [<base>/duId/<du_id>/name] without
    header, parameter or body. *)
Theorem main_requests_are_for_typed_identifiers
    {World : Type} {Ext : External World}
    (st : State World) (rq : request) :
  In (HttpGet rq) (calls (snd (main st))) ->
  In (HttpGet rq) (calls st)
  \/ exists n start_time end_time du_id,
       py_int (env_value (environ st) "DEFAULT_POINTS" "24") = Some n
       /\ fst (get_time_range st) = Ok (start_time, end_time)
       /\ In du_id (parse_du_ids (text_area_value st))
       /\ req_timeout rq = 10
       /\ ((req_url rq
            = env_value (environ st) "BASE_URL" ""
              ++ "/duId/batch/withBandwidth"
            /\ req_headers rq = [("Content-Type", "application/json")]
            /\ req_params rq
               = [("start", PStr start_time); ("end", PStr end_time);
                  ("points", PInt n)]
            /\ req_data rq = Some (PList [PStr du_id]))
           \/ (req_url rq
               = (env_value (environ st) "BASE_URL" "" ++ "/duId")
                 ++ "/" ++ du_id ++ "/name"
               /\ req_headers rq = []
               /\ req_params rq = []
               /\ req_data rq = None)).
Proof.
  destruct (main_calls st) as [E|(n & collected & _ & P & _ & E)];
    rewrite E; [now left|].
  rewrite !in_app_iff. intros [H|[H|[H|H]]].
  - now left.
  - right. apply in_map_iff in H. destruct H as (i & Ei & I).
    injection Ei as <-.
    exists n, (fst (time_window (world st))),
      (snd (time_window (world st))), i.
    refine (conj P (conj eq_refl (conj I (conj eq_refl _)))).
    left. repeat split.
  - right. apply in_map_iff in H. destruct H as (i & Ei & I).
    injection Ei as <-.
    exists n, (fst (time_window (world st))),
      (snd (time_window (world st))), i.
    apply first_seen_not_seen in I. destruct I as [I _].
    refine (conj P (conj eq_refl (conj I (conj eq_refl _)))).
    right. repeat split.
  - destruct collected; simpl in H; [tauto|].
    destruct H as [H|[]]. discriminate.
Qed.

(** X13.  Every call of the summarizer in a run carries the key that
    [main] stored from the configuration, the non-empty value of
    [OPENAI_API_KEY], and a mapping that is not empty as its data. *)
Theorem main_chat_uses_configured_key
    {World : Type} {Ext : External World}
    (st : State World) (req : chat_request) :
  In (ChatCompletion req) (calls (snd (main st))) ->
  In (ChatCompletion req) (calls st)
  \/ (chat_api_key req = dict_get (environ st) "OPENAI_API_KEY"
      /\ chat_api_key req <> Some ""
      /\ chat_api_key req <> None
      /\ exists collected,
           collected <> [] /\ chat_data req = PDict collected).
Proof.
  destruct (main_calls st) as [E|(n & collected & K & _ & _ & E)];
    rewrite E; [now left|].
  rewrite !in_app_iff. intros [H|[H|[H|H]]].
  - now left.
  - apply in_map_iff in H. destruct H as (i & Ei & _). discriminate.
  - apply in_map_iff in H. destruct H as (i & Ei & _). discriminate.
  - right. destruct collected as [|x c]; simpl in H; [tauto|].
    destruct H as [H|[]]. injection H as <-.
    cbn [chat_api_key chat_data gpt_request].
    unfold is_missing in K. unfold env_value.
    destruct (dict_get (environ st) "OPENAI_API_KEY") as [k|];
      [|discriminate].
    refine (conj eq_refl (conj _ (conj _ _))).
    + intros E'. injection E' as ->. discriminate.
    + discriminate.
    + exists (x :: c). split; [discriminate|reflexivity].
Qed.

(* ================================================================== *)
(** ** The further properties, at work *)

Lemma failed_status_is_not_collected_witness :
  exists collected st',
    check_du_ids example_config "0" "1" ["9999"] (scenario_state "")
    = (Ok collected, st')
    /\ dict_get collected "9999" = None.
Proof.
  apply (failed_status_is_not_collected example_config "0" "1"
           [] [] "9999" (scenario_state "")).
  - intros H. exact H.
  - reflexivity.
Defined.

Lemma click_call_sequence_witness :
  exists collected st',
    on_click example_config "0" "1" "1639, 9999 ,1639"
      (scenario_state "")
    = (Ok (Some collected), st')
    /\ length (calls st')
       = (0 + 3 + 2 + (if is_empty_dict collected then 0 else 1))%nat.
Proof.
  destruct (click_call_sequence example_config "0" "1" "1639, 9999 ,1639"
              (scenario_state "") eq_refl)
    as (collected & st' & R & _ & L).
  exists collected, st'. split; [exact R|exact L].
Defined.

Lemma parse_join_round_trip_witness :
  parse_du_ids (join "," ["1639"; "2092"; "1639"])
  = ["1639"; "2092"; "1639"].
Proof.
  apply parse_join_round_trip.
  repeat constructor; discriminate.
Defined.

Lemma click_lists_each_identifier_once_witness :
  shown_names
    (ui (snd (on_click example_config "0" "1" "1639, 9999 ,1639"
                (scenario_state ""))))
  = ["1639"; "9999"].
Proof.
  apply (click_lists_each_identifier_once example_config "0" "1"
           "1639, 9999 ,1639" (scenario_state "")).
  reflexivity.
Defined.

Lemma separators_only_input_runs_empty_witness :
  on_click example_config "0" "1" " , ," (scenario_state "")
  = (Ok (Some []),
     add_ui [UiSubheader "DU Status Results"]
       (add_ui [UiSpinner "Fetching DU status and names..."]
          (scenario_state ""))).
Proof.
  apply separators_only_input_runs_empty; reflexivity.
Defined.

Lemma init_config_returns_complete_config_witness :
  dict_get good_env "OPENAI_API_KEY" = Some "sk-test"
  /\ "sk-test" <> ""
  /\ dict_get good_env "BASE_URL" = Some "http://api"
  /\ "http://api" <> ""
  /\ py_int (env_value good_env "DEFAULT_POINTS" "24") = Some 24
  /\ add_ui [page_config] (scenario_state "")
     = add_ui [page_config] (scenario_state "").
Proof.
  exact (init_config_returns_complete_config (scenario_state "")
           (add_ui [page_config] (scenario_state "")) example_config
           eq_refl).
Defined.

Lemma main_without_click_makes_no_call_witness :
  calls (snd (main idle_state)) = []
  /\ world (snd (main idle_state)) = scenario_world.
Proof.
  exact (main_without_click_makes_no_call idle_state eq_refl).
Defined.

Lemma main_requests_are_for_typed_identifiers_witness :
  let rq :=
    status_request example_config "1699913600000" "1700000000000" "1639" in
  exists n start_time end_time du_id,
    py_int (env_value good_env "DEFAULT_POINTS" "24") = Some n
    /\ fst (get_time_range (scenario_state "1639"))
       = Ok (start_time, end_time)
    /\ In du_id (parse_du_ids "1639")
    /\ req_timeout rq = 10
    /\ ((req_url rq
         = env_value good_env "BASE_URL" "" ++ "/duId/batch/withBandwidth"
         /\ req_headers rq = [("Content-Type", "application/json")]
         /\ req_params rq
            = [("start", PStr start_time); ("end", PStr end_time);
               ("points", PInt n)]
         /\ req_data rq = Some (PList [PStr du_id]))
        \/ (req_url rq
            = (env_value good_env "BASE_URL" "" ++ "/duId")
              ++ "/" ++ du_id ++ "/name"
            /\ req_headers rq = []
            /\ req_params rq = []
            /\ req_data rq = None)).
Proof.
  intros rq.
  destruct (main_requests_are_for_typed_identifiers (scenario_state "1639")
              rq) as [H|H].
  - vm_compute. left. reflexivity.
  - destruct H.
  - exact H.
Defined.

Lemma main_chat_uses_configured_key_witness :
  chat_api_key
    (gpt_request (Some "sk-test")
       [("1639",
         PDict [("name", PStr "Router-A"); ("status", biflow_active)])])
  = dict_get good_env "OPENAI_API_KEY".
Proof.
  destruct (main_chat_uses_configured_key (scenario_state "1639")
              (gpt_request (Some "sk-test")
                 [("1639",
                   PDict [("name", PStr "Router-A");
                          ("status", biflow_active)])]))
    as [H|(E & _)].
  - vm_compute. right. right. left. reflexivity.
  - destruct H.
  - exact E.
Defined.

(* ================================================================== *)
(** ** The time window *)



